(** * maturin_import_hook._resolve_project: a shallow embedding

    The module resolves, from a project directory, the metadata of a maturin
    project: the Cargo manifest, the full name of the extension module, the
    python source root, the package directory and the local path
    dependencies.  The embedding follows [_resolve_project.py] function by
    function.  Python values that the module only passes around are modelled
    as follows.

    - [str] is [string]; the separators the module splits and joins on
      (".", "/", "-") are ASCII, so splitting UTF-8 bytes agrees with
      splitting code points.
    - [pathlib.Path] is [Path], a pure POSIX path: an anchor and the list of
      its components, normalised as [PurePosixPath] normalises them.
    - The data [tomllib.load] returns is [toml]; a table keeps its entries in
      declaration order.
    - The disk is a [World]: a finite map from paths to what is stored there,
      together with the function [Path.resolve] computes.
    - A function that may raise or log returns [M A]: the outcome and the
      records sent to [logger], oldest first. *)

From Stdlib Require Import ZArith Ascii String List Lia.
From stdpp Require Import base option list gmap strings sorting.

(** ** Python strings *)

Module Str.

(** [s.split(sep)] for a one-character separator: never the empty list. *)
Fixpoint split (sep : ascii) (s : string) : list string :=
  match s with
  | EmptyString => [EmptyString]
  | String c s' =>
      if Ascii.eqb c sep then EmptyString :: split sep s'
      else match split sep s' with
           | [] => [String c EmptyString]
           | h :: t => String c h :: t
           end
  end.

(** [s.replace(a, b)] for one-character [a] and [b]. *)
Fixpoint replace (a b : ascii) (s : string) : string :=
  match s with
  | EmptyString => EmptyString
  | String c s' => String (if Ascii.eqb c a then b else c) (replace a b s')
  end.

(** [sep.join(xs)]. *)
Fixpoint join (sep : string) (xs : list string) : string :=
  match xs with
  | [] => EmptyString
  | [x] => x
  | x :: xs' => x +:+ sep +:+ join sep xs'
  end.

(** [s] between double quotes. *)
Definition quoted (s : string) : string :=
  String "034" (s +:+ String "034" EmptyString).

(** [c in s]. *)
Fixpoint contains (c : ascii) (s : string) : bool :=
  match s with
  | EmptyString => false
  | String c' s' => Ascii.eqb c' c || contains c s'
  end.

End Str.

(** [xs[0]] and [xs[-1]] on a list of strings that is known to be non-empty
    (the result of [split]); the default is never reached there. *)
Definition first_part (xs : list string) : string := hd EmptyString xs.
Definition last_part (xs : list string) : string := List.last xs EmptyString.

(** ** pathlib *)

Inductive anchor := Relative | Root | Root2.

Record Path := mkPath { path_anchor : anchor; path_parts : list string }.

#[global] Instance anchor_eq_dec : EqDecision anchor.
Proof. solve_decision. Defined.

#[global] Instance Path_eq_dec : EqDecision Path.
Proof. solve_decision. Defined.

Definition anchor_code (a : anchor) : nat :=
  match a with Relative => 0 | Root => 1 | Root2 => 2 end.

Definition anchor_of_code (n : nat) : anchor :=
  match n with 0 => Relative | 1 => Root | _ => Root2 end.

#[global] Instance anchor_countable : Countable anchor.
Proof.
  apply (inj_countable' anchor_code anchor_of_code).
  intros []; reflexivity.
Defined.

#[global] Instance Path_countable : Countable Path.
Proof.
  apply (inj_countable' (λ p, (path_anchor p, path_parts p))
                        (λ x, mkPath (fst x) (snd x))).
  intros []; reflexivity.
Defined.

Module PurePath.

(** [splitroot] of the POSIX flavour: exactly two leading slashes are kept
    as such, one or more than two are a single root. *)
Definition splitroot (s : string) : anchor :=
  match s with
  | String "/" (String "/" (String "/" _)) => Root
  | String "/" (String "/" _) => Root2
  | String "/" _ => Root
  | _ => Relative
  end.

(** Empty components and "." are dropped when a path is parsed. *)
Definition keep_part (x : string) : bool :=
  negb (String.eqb x "") && negb (String.eqb x ".").

(** [Path(s)]. *)
Definition parse (s : string) : Path :=
  mkPath (splitroot s) (filter (λ x, keep_part x = true) (Str.split "/" s)).

(** [a / b] with [b] a path: an anchored right operand replaces the left. *)
Definition joinpath (a b : Path) : Path :=
  match path_anchor b with
  | Relative => mkPath (path_anchor a) (path_parts a ++ path_parts b)
  | _ => b
  end.

(** [a / s] with [s] a string. *)
Definition join (a : Path) (s : string) : Path := joinpath a (parse s).

(** [Path()], the empty relative path. *)
Definition empty : Path := mkPath Relative [].

(** [Path( *segments)]. *)
Definition of_segments (segments : list string) : Path :=
  fold_left join segments empty.

(** [path.parent]: the anchor alone is its own parent. *)
Definition parent (p : Path) : Path :=
  mkPath (path_anchor p) (removelast (path_parts p)).

Definition anchor_str (a : anchor) : string :=
  match a with Relative => "" | Root => "/" | Root2 => "//" end.

(** [str(path)]. *)
Definition to_str (p : Path) : string :=
  match path_anchor p, path_parts p with
  | Relative, [] => "."
  | a, ps => anchor_str a +:+ Str.join "/" ps
  end.

(** The key paths are ordered by ([_cparts]): the anchor, when there is
    one, followed by the components. *)
Definition cparts (p : Path) : list string :=
  match path_anchor p with
  | Relative => path_parts p
  | a => anchor_str a :: path_parts p
  end.

Definition str_compare (s t : string) : comparison :=
  list_compare Ascii.compare (list_ascii_of_string s) (list_ascii_of_string t).

Definition compare (p q : Path) : comparison :=
  list_compare str_compare (cparts p) (cparts q).

(** [p <= q] on paths. *)
Definition le (p q : Path) : Prop := compare p q ≠ Gt.

End PurePath.

Notation "a </> s" := (PurePath.join a s) (at level 40, left associativity).

(** ** TOML data, as [tomllib.load] returns it *)

#[warnings="-register-all"]
Inductive toml :=
| TString (s : string)
| TInteger (n : Z)
| TFloat (literal : string)
| TBool (b : bool)
| TDatetime (literal : string)
| TArray (items : list toml)
| TTable (entries : list (string * toml)).

(** A python [dict] with string keys, in insertion order.  A table parsed
    from TOML never holds a key twice. *)
Abbreviation dict := (list (string * toml)).

(** [d.get(key)]: [None] when the key is missing. *)
Fixpoint dict_get (key : string) (d : dict) : option toml :=
  match d with
  | [] => None
  | (k, v) :: d' => if String.eqb k key then Some v else dict_get key d'
  end.

(** [d.values()]. *)
Definition dict_values (d : dict) : list toml := map snd d.

(** The classes the module passes as [required_type]. *)
Inductive pytype := py_str | py_list | py_dict.

Definition pytype_name (T : pytype) : string :=
  match T with py_str => "str" | py_list => "list" | py_dict => "dict" end.

(** The values of a class. *)
Definition instance (T : pytype) : Type :=
  match T with
  | py_str => string
  | py_list => list toml
  | py_dict => dict
  end.

(** [isinstance(v, T)], returning the value at its class when it holds. *)
Definition as_instance (T : pytype) (v : toml) : option (instance T) :=
  match T, v with
  | py_str, TString s => Some s
  | py_list, TArray items => Some items
  | py_dict, TTable entries => Some entries
  | _, _ => None
  end.

Definition isinstance (v : toml) (T : pytype) : bool :=
  match as_instance T v with Some _ => true | None => false end.

(** ** Exceptions and logging *)

Inductive exn :=
| ProjectResolveError (msg : string)
| OSError (path : Path)
| TOMLDecodeError (path : Path)
| UnicodeDecodeError (path : Path)
| TypeError
| ValueError
| RuntimeError
| AssertionError.

Inductive outcome (A : Type) :=
| Ok (a : A)
| Raise (e : exn).
Arguments Ok {A} a.
Arguments Raise {A} e.

Inductive log_record :=
| LogError (msg : string)
| LogInfo (msg : string).

(** A computation that may raise and that logs. *)
Definition M (A : Type) : Type := outcome A * list log_record.

Definition ret {A} (a : A) : M A := (Ok a, []).
Definition raise {A} (e : exn) : M A := (Raise e, []).
Definition log {A} (r : log_record) (k : M A) : M A := (fst k, r :: snd k).

Definition bind {A B} (m : M A) (f : A → M B) : M B :=
  match m with
  | (Ok a, l1) => let '(r, l2) := f a in (r, l1 ++ l2)
  | (Raise e, l1) => (Raise e, l1)
  end.

Notation "'let*' x ':=' m 'in' k" := (bind m (λ x, k))
  (at level 10, x name, m at level 100, k at level 200, only parsing).

(** ** The disk *)

Inductive node :=
| Directory
| File (data : dict)      (* a regular file that parses as TOML to [data] *)
| Garbage                 (* a regular file, UTF-8, that is not valid TOML *)
| NotText                 (* a regular file that is not UTF-8 *)
| Unreadable              (* a regular file that cannot be opened *)
| NoAccess.               (* [stat] fails here with an error other than
                             "not found": name too long, permission denied *)

(** Why [Path.resolve] fails on a path: [ValueError] for an embedded null
    byte, [RuntimeError] for a loop of symbolic links. *)
Inductive resolve_failure := EmbeddedNull | SymlinkLoop.

Inductive resolved :=
| ResolvesTo (p : Path)
| CannotResolve (why : resolve_failure).

Record World := mkWorld {
  nodes : gmap Path node;      (* what each path names, if anything *)
  realpath : Path → resolved   (* what [Path.resolve] does with each path *)
}.

(** [path.exists()]: an error of [stat] other than "not found" is raised
    (pathlib up to Python 3.12; a disk without [NoAccess] nodes is one where
    no check fails). *)
Definition path_exists (w : World) (p : Path) : M bool :=
  match nodes w !! p with
  | Some NoAccess => raise (OSError p)
  | Some _ => ret true
  | None => ret false
  end.

(** [path.is_file()]: raises as [exists] does. *)
Definition path_is_file (w : World) (p : Path) : M bool :=
  match nodes w !! p with
  | Some NoAccess => raise (OSError p)
  | Some Directory | None => ret false
  | Some _ => ret true
  end.

(** [path.resolve()]. *)
Definition path_resolve (w : World) (p : Path) : M Path :=
  match realpath w p with
  | ResolvesTo q => ret q
  | CannotResolve EmbeddedNull => raise ValueError
  | CannotResolve SymlinkLoop => raise RuntimeError
  end.

(** ** class _TomlFile *)

Record _TomlFile := mk_TomlFile { toml_path : Path; toml_data : dict }.

Module TomlFile.

(** [_TomlFile.load]: [path.open] raises on a path that cannot be opened,
    [tomllib.load] on bytes that are not UTF-8 or not TOML. *)
Definition load (w : World) (path : Path) : M _TomlFile :=
  match nodes w !! path with
  | Some (File data) => ret (mk_TomlFile path data)
  | Some Garbage => raise (TOMLDecodeError path)
  | Some NotText => raise (UnicodeDecodeError path)
  | Some Directory | Some Unreadable | Some NoAccess | None => raise (OSError path)
  end.

(** How the [for] loop of [get_value] ends. *)
Inductive descent :=
| ReturnNone                    (* [return None] inside the loop *)
| ParentInvalid                 (* [break] with [parent_invalid = True] *)
| Finished (current_data : toml).

(** The loop over [enumerate(keys)], entered with [current_data] a dict.
    [i < num_keys - 1] holds exactly when keys remain after [key]. *)
Fixpoint descend (current_data : dict) (keys : list string) : descent :=
  match keys with
  | [] => Finished (TTable current_data)
  | key :: rest =>
      match dict_get key current_data with
      | None => ReturnNone
      | Some v =>
          match rest with
          | [] => Finished v
          | _ :: _ =>
              match v with
              | TTable entries => descend entries rest
              | _ => ParentInvalid
              end
          end
      end
  end.

Definition get_value_error (self : _TomlFile) (keys : list string) (T : pytype) : log_record :=
  LogError ("failed to get " +:+ pytype_name T +:+ " value at '" +:+ Str.join "." keys
            +:+ "' from toml file: '" +:+ PurePath.to_str (toml_path self) +:+ "'").

Definition get_value (self : _TomlFile) (keys : list string) (T : pytype) : M (option (instance T)) :=
  match keys with
  | [] => raise AssertionError
  | _ :: _ =>
      match descend (toml_data self) keys with
      | ReturnNone => ret None
      | ParentInvalid => log (get_value_error self keys T) (ret None)
      | Finished current_data =>
          match as_instance T current_data with
          | None => log (get_value_error self keys T) (ret None)
          | Some v => ret (Some v)
          end
      end
  end.

Definition get_value_or_default (self : _TomlFile) (keys : list string) (T : pytype)
    (default : instance T) : M (instance T) :=
  let* value := get_value self keys T in
  ret (match value with None => default | Some v => v end).

End TomlFile.

(** [path / value] for a value taken from TOML data: anything but a [str]
    makes [Path.__truediv__] return [NotImplemented], a [TypeError]. *)
Definition path_div (p : Path) (v : toml) : M Path :=
  match v with
  | TString s => ret (p </> s)
  | _ => raise TypeError
  end.

(** ** find_cargo_manifest, is_maybe_maturin_project *)

Definition find_cargo_manifest (w : World) (project_dir : Path) : M (option Path) :=
  let pyproject_path := project_dir </> "pyproject.toml" in
  let* pyproject_found := path_exists w pyproject_path in
  let* relative_manifest_path :=
    (if pyproject_found then
       let* pyproject := TomlFile.load w pyproject_path in
       TomlFile.get_value pyproject ["tool"; "maturin"; "manifest-path"] py_str
     else ret None) in
  match relative_manifest_path with
  | Some relative_manifest_path => ret (Some (project_dir </> relative_manifest_path))
  | None =>
      let manifest_path := project_dir </> "Cargo.toml" in
      let* found := path_exists w manifest_path in
      if found then ret (Some manifest_path)
      else
        let manifest_path := project_dir </> "rust/Cargo.toml" in
        let* found := path_exists w manifest_path in
        if found then ret (Some manifest_path)
        else ret None
  end.

Definition is_maybe_maturin_project (w : World) (project_dir : Path) : M bool :=
  let* pyproject_found := path_exists w (project_dir </> "pyproject.toml") in
  if pyproject_found then
    let* manifest := find_cargo_manifest w project_dir in
    ret (match manifest with Some _ => true | None => false end)
  else ret false.

(** ** _get_immediate_path_dependencies *)

(** The [for] loop over the values of the [dependencies] table. *)
Fixpoint scan_dependencies (w : World) (manifest_dir_path : Path)
    (values : list toml) (path_dependencies : list Path) : M (list Path) :=
  match values with
  | [] => ret path_dependencies
  | dependency :: rest =>
      match as_instance py_dict dependency with
      | Some dependency =>
          match dict_get "path" dependency with
          | Some relative_path =>
              let* joined := path_div manifest_dir_path relative_path in
              let* resolved := path_resolve w joined in
              scan_dependencies w manifest_dir_path rest
                (path_dependencies ++ [resolved])
          | None => scan_dependencies w manifest_dir_path rest path_dependencies
          end
      | None => scan_dependencies w manifest_dir_path rest path_dependencies
      end
  end.

Definition _get_immediate_path_dependencies (w : World) (manifest_dir_path : Path)
    (cargo : _TomlFile) : M (list Path) :=
  let* dependencies := TomlFile.get_value_or_default cargo ["dependencies"] py_dict [] in
  scan_dependencies w manifest_dir_path (dict_values dependencies) [].

(** ** _find_all_path_dependencies *)

(** [l.pop()]: the last element, and the list without it. *)
Definition list_pop {A} (l : list A) : option (list A * A) :=
  match rev l with
  | [] => None
  | x :: r => Some (rev r, x)
  end.

(** The [while to_search] loop.  [fuel] bounds the number of iterations;
    [None] means the bound was reached before the loop ended. *)
Fixpoint search (w : World) (fuel : nat) (logged : list log_record)
    (all_path_dependencies : gset Path) (to_search : list Path)
    : option (M (gset Path)) :=
  match fuel with
  | O => None
  | S fuel =>
      match list_pop to_search with
      | None => Some (Ok all_path_dependencies, logged)
      | Some (to_search, dependency_project_dir) =>
          if decide (dependency_project_dir ∈ all_path_dependencies) then
            search w fuel logged all_path_dependencies to_search
          else
            let all_path_dependencies := {[dependency_project_dir]} ∪ all_path_dependencies in
            let manifest_path := dependency_project_dir </> "Cargo.toml" in
            match path_exists w manifest_path with
            | (Ok true, l0) =>
                match (let* cargo := TomlFile.load w manifest_path in
                       _get_immediate_path_dependencies w dependency_project_dir cargo) with
                | (Ok found, l) =>
                    search w fuel (logged ++ l0 ++ l) all_path_dependencies
                      (to_search ++ found)
                | (Raise e, l) => Some (Raise e, logged ++ l0 ++ l)
                end
            | (Ok false, l0) =>
                search w fuel (logged ++ l0) all_path_dependencies to_search
            | (Raise e, l0) => Some (Raise e, logged ++ l0)
            end
      end
  end.

(** The number of entries of the [dependencies] table of a manifest: no
    manifest yields more path dependencies than that. *)
Definition dependency_count (n : node) : nat :=
  match n with
  | File data =>
      match dict_get "dependencies" data with
      | Some (TTable entries) => length entries
      | _ => 0
      end
  | _ => 0
  end.

Definition total_dependency_count (m : gmap Path node) : nat :=
  map_fold (λ _ n acc, dependency_count n + acc) 0 m.

(** Every iteration pops one element, and every element was either a seed or
    pushed for an entry of a manifest that is loaded once. *)
Definition search_bound (w : World) (seeds : list Path) : nat :=
  S (length seeds + total_dependency_count (nodes w)).

(** [sorted(paths)]. *)
Definition sorted_paths (paths : list Path) : list Path :=
  merge_sort PurePath.le paths.

Definition _find_all_path_dependencies (w : World)
    (immediate_path_dependencies : list Path) : option (M (list Path)) :=
  match immediate_path_dependencies with
  | [] => Some (ret [])
  | _ :: _ =>
      match search w (search_bound w immediate_path_dependencies) [] ∅
              immediate_path_dependencies with
      | None => None
      | Some (Ok all_path_dependencies, l) =>
          Some (Ok (sorted_paths (elements all_path_dependencies)), l)
      | Some (Raise e, l) => Some (Raise e, l)
      end
  end.

(** ** class MaturinProject *)

Record MaturinProject := mkMaturinProject {
  cargo_manifest_path : Path;
  module_full_name : string;
  python_dir : Path;
  python_module : option Path;
  extension_module_dir : option Path;
  immediate_path_dependencies : list Path;
  _all_path_dependencies : option (list Path)
}.

Module Project.

Definition package_name (self : MaturinProject) : string :=
  first_part (Str.split "." (module_full_name self)).

Definition module_name (self : MaturinProject) : string :=
  last_part (Str.split "." (module_full_name self)).

Definition is_mixed (self : MaturinProject) : bool :=
  match extension_module_dir self with Some _ => true | None => false end.

Definition set_all_path_dependencies (self : MaturinProject) (v : list Path) : MaturinProject :=
  mkMaturinProject (cargo_manifest_path self) (module_full_name self) (python_dir self)
    (python_module self) (extension_module_dir self)
    (immediate_path_dependencies self) (Some v).

(** The property computes the closure once and stores it in the record:
    the result comes with the record as the call leaves it. *)
Definition all_path_dependencies (w : World) (self : MaturinProject)
    : option (M (list Path) * MaturinProject) :=
  match _all_path_dependencies self with
  | Some cached => Some (ret cached, self)
  | None =>
      match _find_all_path_dependencies w (immediate_path_dependencies self) with
      | None => None
      | Some (Ok all, l) => Some ((Ok all, l), set_all_path_dependencies self all)
      | Some (Raise e, l) => Some ((Raise e, l), self)
      end
  end.

End Project.

(** ** _resolve_rust_module *)

Definition _resolve_rust_module (python_dir : Path) (module_name : string)
    : Path * Path * string :=
  let parts := Str.split "." module_name in
  if 1 <? length parts then
    let python_module := python_dir </> first_part parts in
    let extension_module_dir :=
      PurePath.joinpath python_dir (PurePath.of_segments (removelast parts)) in
    let extension_module_name := last_part parts in
    (python_module, extension_module_dir, extension_module_name)
  else
    let python_module := python_dir </> module_name in
    let extension_module_dir := python_dir </> module_name in
    let extension_module_name := module_name in
    (python_module, extension_module_dir, extension_module_name).

(** ** _resolve_module_name *)

Definition _resolve_module_name (pyproject cargo : _TomlFile) : M (option string) :=
  let* module_name := TomlFile.get_value pyproject ["tool"; "maturin"; "module-name"] py_str in
  match module_name with
  | Some module_name => ret (Some module_name)
  | None =>
      let* module_name := TomlFile.get_value cargo ["lib"; "name"] py_str in
      match module_name with
      | Some module_name => ret (Some module_name)
      | None =>
          let* module_name := TomlFile.get_value pyproject ["project"; "name"] py_str in
          match module_name with
          | Some module_name => ret (Some module_name)
          | None => TomlFile.get_value cargo ["package"; "name"] py_str
          end
      end
  end.

(** ** _resolve_py_root *)

(** [any((project_dir / p / "__init__.py").is_file() for p in candidates)]:
    the generator is consumed from the left and [any] stops at the first
    hit, so a candidate after it is never joined to [project_dir]. *)
Fixpoint any_init_py (w : World) (project_dir : Path) (candidates : list toml) : M bool :=
  match candidates with
  | [] => ret false
  | p :: rest =>
      let* package_dir := path_div project_dir p in
      let* is_file := path_is_file w (package_dir </> "__init__.py") in
      if is_file then ret true
      else any_init_py w project_dir rest
  end.

Definition _resolve_py_root (w : World) (project_dir : Path) (pyproject : _TomlFile) : M Path :=
  let* py_root := TomlFile.get_value pyproject ["tool"; "maturin"; "python-source"] py_str in
  match py_root with
  | Some py_root => ret (project_dir </> py_root)
  | None =>
      let* project_name := TomlFile.get_value pyproject ["project"; "name"] py_str in
      match project_name with
      | None => ret project_dir
      | Some project_name =>
          let* rust_cargo_toml_found := path_exists w (project_dir </> "rust/Cargo.toml") in
          let* python_packages :=
            TomlFile.get_value_or_default pyproject ["tool"; "maturin"; "python-packages"] py_list [] in
          let package_name := Str.replace "-" "_" project_name in
          let* python_src_found :=
            any_init_py w project_dir
              (TString ("src/" +:+ package_name +:+ "/") :: python_packages) in
          if rust_cargo_toml_found && python_src_found then ret (project_dir </> "src")
          else ret project_dir
      end
  end.

(** ** _resolve_project *)

Definition _resolve_project (w : World) (project_dir : Path) : M MaturinProject :=
  let pyproject_path := project_dir </> "pyproject.toml" in
  let* pyproject_found := path_exists w pyproject_path in
  if negb pyproject_found then
    raise (ProjectResolveError "no pyproject.toml found")
  else
    let* pyproject := TomlFile.load w pyproject_path in
    let* manifest_path := find_cargo_manifest w project_dir in
    match manifest_path with
    | None => raise (ProjectResolveError "no Cargo.toml found")
    | Some manifest_path =>
        let* cargo := TomlFile.load w manifest_path in
        let* module_full_name := _resolve_module_name pyproject cargo in
        match module_full_name with
        | None => raise (ProjectResolveError "could not resolve module_full_name")
        | Some module_full_name =>
            let* python_dir := _resolve_py_root w project_dir pyproject in
            let '(python_module, extension_module_dir, extension_module_name) :=
              _resolve_rust_module python_dir module_full_name in
            let* immediate_path_dependencies :=
              _get_immediate_path_dependencies w (PurePath.parent manifest_path) cargo in
            let* found := path_exists w python_module in
            ret (mkMaturinProject manifest_path module_full_name python_dir
                   (if found then Some python_module else None)
                   (if found then Some extension_module_dir else None)
                   immediate_path_dependencies None)
        end
    end.

(** ** class ProjectResolver *)

Record ProjectResolver := mkProjectResolver {
  _resolved_project_cache : gmap Path (option MaturinProject)
}.

Module Resolver.

(** [ProjectResolver()]. *)
Definition init : ProjectResolver := mkProjectResolver ∅.

(** The record of a failed resolution; [msg] is [str(e)]. *)
Definition resolve_failed (project_dir : Path) (msg : string) : log_record :=
  LogInfo ("failed to resolve project " +:+ Str.quoted (PurePath.to_str project_dir)
           +:+ ": " +:+ msg).

(** [resolve] returns its result and the resolver as the call leaves it.
    Only [_ProjectResolveError] is caught; any other exception leaves
    [resolve] before the cache is written. *)
Definition resolve (w : World) (self : ProjectResolver) (project_dir : Path)
    : M (option MaturinProject) * ProjectResolver :=
  match _resolved_project_cache self !! project_dir with
  | None =>
      match _resolve_project w project_dir with
      | (Ok resolved, l) =>
          ((Ok (Some resolved), l),
           mkProjectResolver (<[project_dir := Some resolved]> (_resolved_project_cache self)))
      | (Raise (ProjectResolveError msg), l) =>
          ((Ok None, l ++ [resolve_failed project_dir msg]),
           mkProjectResolver (<[project_dir := None]> (_resolved_project_cache self)))
      | (Raise e, l) => ((Raise e, l), self)
      end
  | Some resolved => (ret resolved, self)
  end.

End Resolver.

(** * Notions the properties are stated with *)

(** The spec's reading of a lookup: follow the keys one at a time through
    nested tables. *)
Fixpoint lookup_path (v : toml) (keys : list string) : option toml :=
  match keys with
  | [] => Some v
  | key :: rest =>
      match v with
      | TTable entries =>
          match dict_get key entries with
          | Some v' => lookup_path v' rest
          | None => None
          end
      | _ => None
      end
  end.

Definition is_table (v : toml) : bool :=
  match v with TTable _ => true | _ => false end.

(** Some key of the list is missing from the table its predecessors lead to. *)
Definition key_missing (data : dict) (keys : list string) : Prop :=
  ∃ pre key post entries,
    keys = pre ++ key :: post ∧
    lookup_path (TTable data) pre = Some (TTable entries) ∧
    dict_get key entries = None.

(** A key that is not the last one is present with a value that is not a table. *)
Definition parent_not_table (data : dict) (keys : list string) : Prop :=
  ∃ pre post v,
    keys = pre ++ post ∧ pre ≠ [] ∧ post ≠ [] ∧
    lookup_path (TTable data) pre = Some v ∧ is_table v = false.

(** The last key is present with a value of another class than the expected one. *)
Definition terminal_mismatch (data : dict) (keys : list string) (T : pytype) : Prop :=
  ∃ v, lookup_path (TTable data) keys = Some v ∧ isinstance v T = false.

(** The value a file holds at [keys] when it is of class [T]. *)
Definition config_value (self : _TomlFile) (keys : list string) (T : pytype)
    : option (instance T) :=
  match lookup_path (TTable (toml_data self)) keys with
  | Some v => as_instance T v
  | None => None
  end.

(** The tiers, in the order they are tried. *)
Definition first_tier (pyproject cargo : _TomlFile) : option string :=
  match config_value pyproject ["tool"; "maturin"; "module-name"] py_str,
        config_value cargo ["lib"; "name"] py_str,
        config_value pyproject ["project"; "name"] py_str with
  | Some name, _, _ => Some name
  | None, Some name, _ => Some name
  | None, None, Some name => Some name
  | None, None, None => config_value cargo ["package"; "name"] py_str
  end.

(** A component that is a directory name of its own: not empty, and without
    "/".  (A component of a dotted name cannot be "." either.) *)
Definition plain (part : string) : Prop :=
  part ≠ EmptyString ∧ part ≠ "." ∧ Str.contains "/" part = false.

(** [extend p parts] is [p] with further components appended. *)
Definition extend (p : Path) (parts : list string) : Path :=
  mkPath (path_anchor p) (path_parts p ++ parts).

(** Whether the package marker is a file in the directory [p] names. *)
Definition has_init_py (w : World) (project_dir : Path) (p : string) : M bool :=
  path_is_file w (project_dir </> p </> "__init__.py").

(** The candidates of the third rule, once the project name is known. *)
Definition src_package (project_name : string) : string :=
  "src/" +:+ Str.replace "-" "_" project_name +:+ "/".

(** What a successful [_resolve_project] has read and computed. *)
Inductive resolution (w : World) (project_dir : Path) (project : MaturinProject) : Prop :=
| Resolution (pyproject cargo : dict)
    (res_pyproject_loaded :
       nodes w !! (project_dir </> "pyproject.toml") = Some (File pyproject))
    (res_manifest_found :
       fst (find_cargo_manifest w project_dir) = Ok (Some (cargo_manifest_path project)))
    (res_cargo_loaded :
       nodes w !! cargo_manifest_path project = Some (File cargo))
    (res_name :
       fst (_resolve_module_name
              (mk_TomlFile (project_dir </> "pyproject.toml") pyproject)
              (mk_TomlFile (cargo_manifest_path project) cargo))
       = Ok (Some (module_full_name project)))
    (res_root :
       fst (_resolve_py_root w project_dir
              (mk_TomlFile (project_dir </> "pyproject.toml") pyproject))
       = Ok (python_dir project))
    (res_dependencies :
       fst (_get_immediate_path_dependencies w
              (PurePath.parent (cargo_manifest_path project))
              (mk_TomlFile (cargo_manifest_path project) cargo))
       = Ok (immediate_path_dependencies project))
    (found : bool)
    (res_layout :
       let layout := _resolve_rust_module (python_dir project) (module_full_name project) in
       path_exists w (fst (fst layout)) = ret found ∧
       python_module project = (if found then Some (fst (fst layout)) else None) ∧
       extension_module_dir project = (if found then Some (snd (fst layout)) else None))
    (res_closure : _all_path_dependencies project = None).

(** Paths as pathlib builds them: no component holds a "/". *)
Definition well_formed (p : Path) : Prop :=
  Forall (λ part, Str.contains "/" part = false) (path_parts p).

(** What a visit of [dir] finds: the path dependencies of its manifest,
    none when it has no manifest. *)
Definition manifest_dependencies (w : World) (dir : Path) : M (list Path) :=
  let manifest_path := dir </> "Cargo.toml" in
  let* found := path_exists w manifest_path in
  if found then
    let* cargo := TomlFile.load w manifest_path in
    _get_immediate_path_dependencies w dir cargo
  else ret [].

(** The directories the dependency relation leads to from the seeds. *)
Inductive reachable (w : World) (seeds : list Path) : Path → Prop :=
| reachable_seed p : p ∈ seeds → reachable w seeds p
| reachable_dependency dir p found l :
    reachable w seeds dir →
    manifest_dependencies w dir = (Ok found, l) →
    p ∈ found →
    reachable w seeds p.

(** The invariant of the loop: everything visited or waiting is reachable,
    every seed is visited or waiting, and so is every dependency of a
    visited directory. *)
Definition search_invariant (w : World) (seeds : list Path) (visited : gset Path)
    (to_search : list Path) : Prop :=
  (∀ p, p ∈ visited → reachable w seeds p) ∧
  (∀ p, p ∈ to_search → reachable w seeds p) ∧
  (∀ p, p ∈ seeds → p ∈ visited ∨ p ∈ to_search) ∧
  (∀ dir, dir ∈ visited →
     ∃ found l, manifest_dependencies w dir = (Ok found, l) ∧
                ∀ p, p ∈ found → p ∈ visited ∨ p ∈ to_search).

(** The manifest [find_cargo_manifest] falls back to when pyproject.toml
    names none: Cargo.toml of the project, then rust/Cargo.toml. *)
Definition default_manifest (w : World) (project_dir : Path) : M (option Path) :=
  let* found := path_exists w (project_dir </> "Cargo.toml") in
  if found then ret (Some (project_dir </> "Cargo.toml"))
  else
    let* found := path_exists w (project_dir </> "rust/Cargo.toml") in
    if found then ret (Some (project_dir </> "rust/Cargo.toml"))
    else ret None.

(** The [dependencies] table of a manifest, empty when there is none. *)
Definition dependencies_table (cargo : _TomlFile) : dict :=
  match config_value cargo ["dependencies"] py_dict with
  | Some entries => entries
  | None => []
  end.

(** The [path] values of the dependencies that are tables, in the order the
    manifest declares them. *)
Definition path_of_dependency (dependency : toml) : option toml :=
  match dependency with
  | TTable entry => dict_get "path" entry
  | _ => None
  end.

Definition declared_paths (dependencies : dict) : list toml :=
  omap path_of_dependency (dict_values dependencies).

(** What [resolve] raises on a path it cannot resolve. *)
Definition resolve_error (why : resolve_failure) : exn :=
  match why with
  | EmbeddedNull => ValueError
  | SymlinkLoop => RuntimeError
  end.

(** [relative], joined to [dir], resolves to [p]. *)
Definition resolves_to (w : World) (dir : Path) (relative : string) (p : Path) : Prop :=
  realpath w (dir </> relative) = ResolvesTo p.

(** The declared [path] values taken one after the other: each has to be a
    string, which is joined to [dir] and resolved. *)
Fixpoint resolve_declared (w : World) (dir : Path) (declared : list toml)
    : outcome (list Path) :=
  match declared with
  | [] => Ok []
  | TString relative :: rest =>
      match realpath w (dir </> relative) with
      | ResolvesTo p =>
          match resolve_declared w dir rest with
          | Ok paths => Ok (p :: paths)
          | Raise e => Raise e
          end
      | CannotResolve why => Raise (resolve_error why)
      end
  | _ :: _ => Raise TypeError
  end.

(** The three ways a directory fails to resolve: the check for pyproject.toml
    answers that there is none; pyproject.toml loads and no manifest is
    found; both files load and no tier names the module. *)
Definition not_resolvable (w : World) (project_dir : Path) : Prop :=
  path_exists w (project_dir </> "pyproject.toml") = ret false ∨
  (∃ pydata,
     nodes w !! (project_dir </> "pyproject.toml") = Some (File pydata) ∧
     fst (find_cargo_manifest w project_dir) = Ok None) ∨
  (∃ pydata manifest_path cdata,
     nodes w !! (project_dir </> "pyproject.toml") = Some (File pydata) ∧
     fst (find_cargo_manifest w project_dir) = Ok (Some manifest_path) ∧
     nodes w !! manifest_path = Some (File cdata) ∧
     first_tier (mk_TomlFile (project_dir </> "pyproject.toml") pydata)
                (mk_TomlFile manifest_path cdata) = None).

(** ** Sample projects

    Small disks on which the functions are run.  [Path.resolve] is taken for
    a disk without symbolic links: the path is made absolute and ".."
    components are collapsed. *)

Module Sample.

Fixpoint collapse (seen : list string) (parts : list string) : list string :=
  match parts with
  | [] => rev seen
  | ".." :: rest => collapse (tl seen) rest
  | x :: rest => collapse (x :: seen) rest
  end.

Definition resolve_from (cwd : Path) (p : Path) : Path :=
  let q := PurePath.joinpath cwd p in
  mkPath (path_anchor q) (collapse [] (path_parts q)).

Definition disk (entries : list (Path * node)) : World :=
  mkWorld (list_to_map entries) (λ p, ResolvesTo (resolve_from (mkPath Root []) p)).

(** The same, where [resolve] refuses a path with a NUL character in it. *)
Definition disk_refusing_nul (entries : list (Path * node)) : World :=
  mkWorld (list_to_map entries)
    (λ p, if existsb (Str.contains "000") (path_parts p)
          then CannotResolve EmbeddedNull
          else ResolvesTo (resolve_from (mkPath Root []) p)).


Definition at_root (parts : list string) : Path := mkPath Root parts.

Definition proj : Path := at_root ["proj"].

(** A mixed project named "my-pkg": rust/Cargo.toml and src/my_pkg. *)
Definition mixed_pyproject : dict :=
  [("project", TTable [("name", TString "my-pkg")])].

Definition mixed_cargo : dict :=
  [("package", TTable [("name", TString "my-pkg-rs")]);
   ("lib", TTable [("name", TString "my_pkg")])].

Definition mixed : World :=
  disk [(at_root ["proj"], Directory);
        (at_root ["proj"; "pyproject.toml"], File mixed_pyproject);
        (at_root ["proj"; "rust"], Directory);
        (at_root ["proj"; "rust"; "Cargo.toml"], File mixed_cargo);
        (at_root ["proj"; "src"], Directory);
        (at_root ["proj"; "src"; "my_pkg"], Directory);
        (at_root ["proj"; "src"; "my_pkg"; "__init__.py"], Garbage)].

(** The same project without the package marker. *)
Definition no_marker : World :=
  disk [(at_root ["proj"], Directory);
        (at_root ["proj"; "pyproject.toml"], File mixed_pyproject);
        (at_root ["proj"; "rust"], Directory);
        (at_root ["proj"; "rust"; "Cargo.toml"], File mixed_cargo)].

(** Two crates that depend on each other by path. *)
Definition crate_a : Path := at_root ["ws"; "a"].
Definition crate_b : Path := at_root ["ws"; "b"].

Definition depends_on (name rel : string) : dict :=
  [("package", TTable [("name", TString name)]);
   ("dependencies",
    TTable [("serde", TString "1.0");
            ("other", TTable [("path", TString rel)])])].

Definition cycle : World :=
  disk [(crate_a </> "Cargo.toml", File (depends_on "a" "../b"));
        (crate_b </> "Cargo.toml", File (depends_on "b" "../a"))].

End Sample.

(** Further files and disks the properties are checked on. *)

Definition malformed_file : _TomlFile :=
  mk_TomlFile (Sample.proj </> "pyproject.toml")
    [("tool", TString "maturin");
     ("project", TTable [("name", TArray [TString "my-pkg"])])].

Definition all_tiers_py : _TomlFile :=
  mk_TomlFile (Sample.proj </> "pyproject.toml")
    [("project", TTable [("name", TString "tier3")]);
     ("tool", TTable [("maturin", TTable [("module-name", TString "tier1")])])].

Definition lower_tiers_py : _TomlFile :=
  mk_TomlFile (Sample.proj </> "pyproject.toml")
    [("project", TTable [("name", TString "tier3")])].

Definition all_tiers_cargo : _TomlFile :=
  mk_TomlFile (Sample.proj </> "Cargo.toml")
    [("package", TTable [("name", TString "tier4")]);
     ("lib", TTable [("name", TString "tier2")])].

Definition package_only_cargo : _TomlFile :=
  mk_TomlFile (Sample.proj </> "Cargo.toml")
    [("package", TTable [("name", TString "tier4")])].

Definition empty_file : _TomlFile := mk_TomlFile (Sample.proj </> "x.toml") [].

Definition mixed_pyproject_file : _TomlFile :=
  mk_TomlFile (Sample.proj </> "pyproject.toml") Sample.mixed_pyproject.

Definition mixed_project : MaturinProject :=
  mkMaturinProject (Sample.at_root ["proj"; "rust"; "Cargo.toml"]) "my_pkg"
    (Sample.at_root ["proj"; "src"])
    (Some (Sample.at_root ["proj"; "src"; "my_pkg"]))
    (Some (Sample.at_root ["proj"; "src"; "my_pkg"]))
    [] None.

Definition no_marker_project : MaturinProject :=
  mkMaturinProject (Sample.at_root ["proj"; "rust"; "Cargo.toml"]) "my_pkg"
    (Sample.at_root ["proj"]) None None [] None.

(** The project of the spec's example with the nested manifest removed. *)
Definition no_nested_manifest : World :=
  Sample.disk
    [(Sample.at_root ["proj"], Directory);
     (Sample.at_root ["proj"; "pyproject.toml"], File Sample.mixed_pyproject);
     (Sample.at_root ["proj"; "Cargo.toml"], File Sample.mixed_cargo);
     (Sample.at_root ["proj"; "src"], Directory);
     (Sample.at_root ["proj"; "src"; "my_pkg"], Directory);
     (Sample.at_root ["proj"; "src"; "my_pkg"; "__init__.py"], Garbage)].

(** A project whose pyproject.toml sets [module-name = ""]. *)
Definition empty_name : World :=
  Sample.disk
    [(Sample.at_root ["proj"], Directory);
     (Sample.at_root ["proj"; "pyproject.toml"],
      File [("tool", TTable [("maturin", TTable [("module-name", TString "")])])]);
     (Sample.at_root ["proj"; "Cargo.toml"],
      File [("package", TTable [("name", TString "crate")])])].

Definition empty_name_project : MaturinProject :=
  mkMaturinProject (Sample.at_root ["proj"; "Cargo.toml"]) ""
    (Sample.at_root ["proj"]) (Some (Sample.at_root ["proj"]))
    (Some (Sample.at_root ["proj"])) [] None.

(** A pyproject.toml whose [python-packages] holds a number. *)
Definition bad_packages_pyproject : dict :=
  [("project", TTable [("name", TString "my-pkg")]);
   ("tool", TTable [("maturin", TTable [("python-packages", TArray [TInteger 5])])])].

Definition bad_packages_file : _TomlFile :=
  mk_TomlFile (Sample.proj </> "pyproject.toml") bad_packages_pyproject.

(** The marker of src/my_pkg is missing: the scan reaches the number. *)
Definition bad_package_reached : World :=
  Sample.disk
    [(Sample.at_root ["proj"], Directory);
     (Sample.at_root ["proj"; "pyproject.toml"], File bad_packages_pyproject);
     (Sample.at_root ["proj"; "Cargo.toml"], File Sample.mixed_cargo)].

(** The marker of src/my_pkg is there: the scan stops before the number. *)
Definition bad_package_skipped : World :=
  Sample.disk
    [(Sample.at_root ["proj"], Directory);
     (Sample.at_root ["proj"; "pyproject.toml"], File bad_packages_pyproject);
     (Sample.at_root ["proj"; "Cargo.toml"], File Sample.mixed_cargo);
     (Sample.at_root ["proj"; "src"; "my_pkg"; "__init__.py"], Garbage)].

Definition bad_package_skipped_project : MaturinProject :=
  mkMaturinProject (Sample.at_root ["proj"; "Cargo.toml"]) "my_pkg"
    Sample.proj None None [] None.

(** A project whose pyproject.toml is not valid TOML, and one whose
    Cargo.toml is not. *)
Definition unparsable_pyproject : World :=
  Sample.disk
    [(Sample.at_root ["proj"], Directory);
     (Sample.at_root ["proj"; "pyproject.toml"], Garbage);
     (Sample.at_root ["proj"; "Cargo.toml"], File Sample.mixed_cargo)].

Definition unparsable_manifest : World :=
  Sample.disk
    [(Sample.at_root ["proj"], Directory);
     (Sample.at_root ["proj"; "pyproject.toml"], File Sample.mixed_pyproject);
     (Sample.at_root ["proj"; "Cargo.toml"], Garbage)].

(** A manifest with a registry dependency, two path dependencies and a
    table without a path. *)
Definition workspace_cargo : _TomlFile :=
  mk_TomlFile (Sample.at_root ["ws"; "app"; "Cargo.toml"])
    [("package", TTable [("name", TString "app")]);
     ("dependencies",
      TTable [("serde", TString "1.0");
              ("core", TTable [("path", TString "../core")]);
              ("log", TTable [("version", TString "0.4")]);
              ("util", TTable [("path", TString "crates/util")])])].


(** A project whose pyproject.toml names its manifest, which is not on disk
    where the default locations are looked up. *)
Definition override_pyproject : dict :=
  [("project", TTable [("name", TString "my-pkg")]);
   ("tool", TTable [("maturin", TTable [("manifest-path", TString "native/Cargo.toml")])])].

Definition override_manifest : World :=
  Sample.disk
    [(Sample.at_root ["proj"], Directory);
     (Sample.at_root ["proj"; "pyproject.toml"], File override_pyproject);
     (Sample.at_root ["proj"; "Cargo.toml"], File Sample.mixed_cargo);
     (Sample.at_root ["proj"; "native"; "Cargo.toml"], File Sample.mixed_cargo)].

(** A project with a pyproject.toml and no manifest. *)
Definition no_manifest : World :=
  Sample.disk
    [(Sample.at_root ["proj"], Directory);
     (Sample.at_root ["proj"; "pyproject.toml"], File Sample.mixed_pyproject)].

(** The project record of crate a of [Sample.cycle], before and after its
    closure is computed. *)
Definition crate_a_project : MaturinProject :=
  mkMaturinProject (Sample.crate_a </> "Cargo.toml") "a" Sample.crate_a None None
    [Sample.crate_b] None.

Definition crate_a_project_closed : MaturinProject :=
  Project.set_all_path_dependencies crate_a_project [Sample.crate_a; Sample.crate_b].




(** The mixed project on a disk that refuses to look at the marker. *)
Definition no_access_marker : World :=
  Sample.disk
    [(Sample.at_root ["proj"], Directory);
     (Sample.at_root ["proj"; "pyproject.toml"], File Sample.mixed_pyproject);
     (Sample.at_root ["proj"; "rust"; "Cargo.toml"], File Sample.mixed_cargo);
     (Sample.at_root ["proj"; "src"; "my_pkg"; "__init__.py"], NoAccess)].


Definition number_then_nul_cargo : _TomlFile :=
  mk_TomlFile (Sample.at_root ["ws"; "app"; "Cargo.toml"])
    [("dependencies",
      TTable [("core", TTable [("path", TInteger 7)]);
              ("util", TTable [("path", TString (String "a" (String "000" "b")))])])].

(** A project whose manifest lies in rust/ and declares path dependencies. *)
Definition nested_manifest_app : World :=
  Sample.disk
    [(Sample.at_root ["ws"; "app"], Directory);
     (Sample.at_root ["ws"; "app"; "pyproject.toml"], File Sample.mixed_pyproject);
     (Sample.at_root ["ws"; "app"; "rust"], Directory);
     (Sample.at_root ["ws"; "app"; "rust"; "Cargo.toml"], File (toml_data workspace_cargo))].

Definition nested_manifest_project : MaturinProject :=
  mkMaturinProject (Sample.at_root ["ws"; "app"; "rust"; "Cargo.toml"]) "my-pkg"
    (Sample.at_root ["ws"; "app"])
    None None
    [Sample.at_root ["ws"; "app"; "core"];
     Sample.at_root ["ws"; "app"; "rust"; "crates"; "util"]]
    None.

(** A project with a regular file where its package directory would be. *)
Definition package_is_file : World :=
  Sample.disk
    [(Sample.at_root ["proj"], Directory);
     (Sample.at_root ["proj"; "pyproject.toml"], File Sample.mixed_pyproject);
     (Sample.at_root ["proj"; "Cargo.toml"], File Sample.mixed_cargo);
     (Sample.at_root ["proj"; "my_pkg"], Garbage)].

Definition package_is_file_project : MaturinProject :=
  mkMaturinProject (Sample.at_root ["proj"; "Cargo.toml"]) "my_pkg"
    (Sample.at_root ["proj"])
    (Some (Sample.at_root ["proj"; "my_pkg"]))
    (Some (Sample.at_root ["proj"; "my_pkg"]))
    [] None.

(** The mixed project on a disk that refuses to look at pyproject.toml, and
    on one that refuses to look at the package directory. *)
Definition no_access_pyproject : World :=
  Sample.disk
    [(Sample.at_root ["proj"], Directory);
     (Sample.at_root ["proj"; "pyproject.toml"], NoAccess);
     (Sample.at_root ["proj"; "Cargo.toml"], File Sample.mixed_cargo)].

(** * Properties *)

(** ** Strings and paths on examples *)

Example parse_abs : PurePath.parse "/r/pkg//./sub/" = mkPath Root ["r"; "pkg"; "sub"].
Proof. reflexivity. Qed.

Example join_abs : mkPath Root ["r"] </> "/etc" = mkPath Root ["etc"].
Proof. reflexivity. Qed.

Example split_ex : Str.split "." "pkg.sub.ext" = ["pkg"; "sub"; "ext"].
Proof. reflexivity. Qed.

Example split_trailing : Str.split "." "a." = ["a"; ""].
Proof. reflexivity. Qed.

Example parse_two_slashes :
  PurePath.parse "//srv/x" = mkPath Root2 ["srv"; "x"] ∧
  PurePath.parse "///srv/x" = mkPath Root ["srv"; "x"] ∧
  PurePath.parse "" = PurePath.empty.
Proof. repeat split. Qed.

Example parent_of_manifest :
  PurePath.parent (Sample.proj </> "rust/Cargo.toml") = Sample.at_root ["proj"; "rust"].
Proof. reflexivity. Qed.

(** ** The monad *)

Lemma bind_ok {A B} (m : M A) (f : A → M B) b l :
  bind m f = (Ok b, l) →
  ∃ a l1 l2, m = (Ok a, l1) ∧ f a = (Ok b, l2) ∧ l = l1 ++ l2.
Proof.
  unfold bind. destruct m as [[a|e] l1]; [|discriminate].
  destruct (f a) as [r l2] eqn:Hf. intros [= -> <-]. eauto 6.
Qed.

Lemma bind_fst_ok {A B} (m : M A) (f : A → M B) a :
  fst m = Ok a → fst (bind m f) = fst (f a).
Proof.
  unfold bind. destruct m as [[a'|e] l1]; simpl; [|discriminate].
  intros [= ->]. by destruct (f a).
Qed.

Lemma bind_fst_raise {A B} (m : M A) (f : A → M B) e :
  fst m = Raise e → fst (bind m f) = Raise e.
Proof. unfold bind. destruct m as [[a'|e'] l1]; simpl; [discriminate|]. by intros [= ->]. Qed.

(** ** Typed lookup (C6) *)

Lemma descend_cons data key key' rest :
  TomlFile.descend data (key :: key' :: rest) =
  match dict_get key data with
  | None => TomlFile.ReturnNone
  | Some (TTable entries) => TomlFile.descend entries (key' :: rest)
  | Some _ => TomlFile.ParentInvalid
  end.
Proof. reflexivity. Qed.

Lemma descend_missing data keys :
  key_missing data keys → TomlFile.descend data keys = TomlFile.ReturnNone.
Proof.
  intros (pre & key & post & entries & -> & Hpre & Hget).
  revert data Hpre. induction pre as [|k pre IH]; intros data Hpre.
  - simpl in *. injection Hpre as ->. by rewrite Hget.
  - assert (∃ k' rest, pre ++ key :: post = k' :: rest) as (k' & rest & Hrest)
      by (destruct pre; simpl; eauto).
    simpl app. rewrite Hrest, descend_cons, <- Hrest. simpl in Hpre.
    destruct (dict_get k data) as [v|]; [|done].
    destruct v; try (by destruct pre). by apply IH.
Qed.

Lemma descend_parent data keys :
  parent_not_table data keys →
  TomlFile.descend data keys = TomlFile.ParentInvalid.
Proof.
  intros (pre & post & v & -> & Hpre & Hpost & Hlook & Hv).
  revert data Hpre Hlook. induction pre as [|k pre IH]; intros data Hpre Hlook; [done|].
  assert (∃ k' rest, pre ++ post = k' :: rest) as (k' & rest & Hrest)
    by (destruct pre, post; simpl; eauto; done).
  simpl app. rewrite Hrest, descend_cons, <- Hrest. simpl in Hlook.
  destruct (dict_get k data) as [v'|]; [|done].
  destruct pre as [|k'' pre].
  - simpl in Hlook. injection Hlook as ->. by destruct v.
  - destruct v'; try discriminate. by apply IH.
Qed.

Lemma descend_finished data keys v :
  keys ≠ [] → lookup_path (TTable data) keys = Some v →
  TomlFile.descend data keys = TomlFile.Finished v.
Proof.
  revert data. induction keys as [|k keys IH]; intros data Hne Hlook; [done|].
  simpl in *. destruct (dict_get k data) as [v'|] eqn:Hk; [|done].
  destruct keys as [|k' keys]; [by injection Hlook as ->|].
  destruct v'; try discriminate. by apply IH.
Qed.

Lemma descend_finished_inv data keys v :
  keys ≠ [] → TomlFile.descend data keys = TomlFile.Finished v →
  lookup_path (TTable data) keys = Some v.
Proof.
  revert data. induction keys as [|k keys IH]; intros data Hne Hd; [done|].
  simpl in *. destruct (dict_get k data) as [v'|] eqn:Hk; [|done].
  destruct keys as [|k' keys]; [by injection Hd as ->|].
  destruct v'; try discriminate. by eapply IH.
Qed.

Lemma descend_lookup data keys :
  keys ≠ [] →
  match TomlFile.descend data keys with
  | TomlFile.Finished v => lookup_path (TTable data) keys = Some v
  | _ => lookup_path (TTable data) keys = None
  end.
Proof.
  revert data. induction keys as [|k keys IH]; intros data Hne; [done|].
  destruct keys as [|k' keys].
  - simpl. by destruct (dict_get k data).
  - rewrite descend_cons. simpl lookup_path.
    destruct (dict_get k data) as [v|]; [|done].
    destruct v; try done. by apply IH.
Qed.

Lemma get_value_never_raises self keys T :
  keys ≠ [] → ∃ r l, TomlFile.get_value self keys T = (Ok r, l).
Proof.
  intros Hne. unfold TomlFile.get_value. destruct keys as [|k keys]; [done|].
  destruct (TomlFile.descend _ _); [by eauto..|].
  destruct (as_instance T current_data); by eauto.
Qed.

Lemma get_value_config self keys T :
  keys ≠ [] → fst (TomlFile.get_value self keys T) = Ok (config_value self keys T).
Proof.
  intros Hne. unfold TomlFile.get_value, config_value.
  pose proof (descend_lookup (toml_data self) keys Hne) as H.
  destruct keys as [|k keys]; [done|].
  destruct (TomlFile.descend _ _); rewrite H; try done.
  by destruct (as_instance T current_data).
Qed.

Lemma get_value_or_default_config self keys T default :
  keys ≠ [] →
  fst (TomlFile.get_value_or_default self keys T default)
  = Ok (match config_value self keys T with Some v => v | None => default end).
Proof.
  intros Hne. unfold TomlFile.get_value_or_default.
  erewrite bind_fst_ok by by apply get_value_config. done.
Qed.

(** C6.  A lookup with a non-empty key list never raises.  When a key is
    missing it returns [None] and logs nothing; when a key before the last
    one holds something that is not a table, or the last one holds a value
    of another class than the expected one, it returns [None] as well, after
    logging one error.  It returns a value exactly when the keys lead to a
    value of the expected class. *)
Theorem get_value_absent_when_missing_or_malformed
    (self : _TomlFile) (keys : list string) (T : pytype) :
  keys ≠ [] →
  (∃ r l, TomlFile.get_value self keys T = (Ok r, l)) ∧
  (key_missing (toml_data self) keys →
     TomlFile.get_value self keys T = (Ok None, [])) ∧
  (parent_not_table (toml_data self) keys ∨ terminal_mismatch (toml_data self) keys T →
     TomlFile.get_value self keys T
     = (Ok None, [TomlFile.get_value_error self keys T])) ∧
  (∀ x, fst (TomlFile.get_value self keys T) = Ok (Some x) ↔
        ∃ v, lookup_path (TTable (toml_data self)) keys = Some v ∧
             as_instance T v = Some x).
Proof.
  intros Hne. split; [by apply get_value_never_raises|]. repeat split.
  - intros Hmiss. unfold TomlFile.get_value. destruct keys as [|k keys]; [done|].
    by rewrite (descend_missing _ _ Hmiss).
  - intros [Hpar|(v & Hlook & Hty)]; unfold TomlFile.get_value;
      destruct keys as [|k keys]; try done.
    + by rewrite (descend_parent _ _ Hpar).
    + rewrite (descend_finished _ _ v) by done.
      unfold isinstance in Hty. by destruct (as_instance T v).
  - rewrite get_value_config by done. unfold config_value. intros [= Hx].
    destruct (lookup_path _ keys) as [v|]; [eauto|done].
  - intros (v & Hlook & Hv). rewrite get_value_config by done.
    unfold config_value. by rewrite Hlook, Hv.
Qed.

Lemma get_value_absent_witness :
  TomlFile.get_value malformed_file ["project"; "version"] py_str = (Ok None, []) ∧
  TomlFile.get_value malformed_file ["project"; "name"] py_str
  = (Ok None, [LogError "failed to get str value at 'project.name' from toml file: '/proj/pyproject.toml'"]) ∧
  TomlFile.get_value malformed_file ["tool"; "maturin"; "module-name"] py_str
  = (Ok None, [LogError "failed to get str value at 'tool.maturin.module-name' from toml file: '/proj/pyproject.toml'"]).
Proof.
  split; [|split].
  - apply (get_value_absent_when_missing_or_malformed malformed_file
             ["project"; "version"] py_str); [done|].
    by exists ["project"], "version", [], [("name", TArray [TString "my-pkg"])].
  - apply (get_value_absent_when_missing_or_malformed malformed_file
             ["project"; "name"] py_str); [done|].
    right. by exists (TArray [TString "my-pkg"]).
  - apply (get_value_absent_when_missing_or_malformed malformed_file
             ["tool"; "maturin"; "module-name"] py_str); [done|].
    left. by exists ["tool"], ["maturin"; "module-name"], (TString "maturin").
Defined.

(** ** Module name (C1) *)

Lemma resolve_module_name_first_tier pyproject cargo :
  fst (_resolve_module_name pyproject cargo) = Ok (first_tier pyproject cargo).
Proof.
  unfold _resolve_module_name, first_tier.
  erewrite bind_fst_ok by by apply get_value_config.
  destruct (config_value pyproject _ _); [done|].
  erewrite bind_fst_ok by by apply get_value_config.
  destruct (config_value cargo ["lib"; "name"] _); [done|].
  erewrite bind_fst_ok by by apply get_value_config.
  destruct (config_value pyproject _ _); [done|].
  by apply (get_value_config cargo _ py_str).
Qed.

(** C1.  The four tiers are tried in order and the first one that holds a
    string wins; the result is [None] exactly when none of the four does. *)
Theorem resolve_module_name_precedence (pyproject cargo : _TomlFile) :
  let tier1 := config_value pyproject ["tool"; "maturin"; "module-name"] py_str in
  let tier2 := config_value cargo ["lib"; "name"] py_str in
  let tier3 := config_value pyproject ["project"; "name"] py_str in
  let tier4 := config_value cargo ["package"; "name"] py_str in
  fst (_resolve_module_name pyproject cargo)
  = Ok (match tier1, tier2, tier3 with
        | Some name, _, _ => Some name
        | None, Some name, _ => Some name
        | None, None, Some name => Some name
        | None, None, None => tier4
        end) ∧
  (fst (_resolve_module_name pyproject cargo) = Ok None ↔
   tier1 = None ∧ tier2 = None ∧ tier3 = None ∧ tier4 = None).
Proof.
  intros tier1 tier2 tier3 tier4.
  rewrite resolve_module_name_first_tier. unfold first_tier.
  fold tier1 tier2 tier3 tier4. split; [done|].
  destruct tier1, tier2, tier3, tier4; intuition congruence.
Qed.

Example module_name_tiers :
  fst (_resolve_module_name all_tiers_py all_tiers_cargo) = Ok (Some "tier1") ∧
  fst (_resolve_module_name lower_tiers_py all_tiers_cargo) = Ok (Some "tier2") ∧
  fst (_resolve_module_name lower_tiers_py package_only_cargo) = Ok (Some "tier3") ∧
  fst (_resolve_module_name empty_file package_only_cargo) = Ok (Some "tier4") ∧
  fst (_resolve_module_name empty_file empty_file) = Ok None.
Proof. repeat split. Qed.

(** ** Extension layout (C2) *)

Lemma split_nonempty sep s : Str.split sep s ≠ [].
Proof.
  destruct s as [|c s]; simpl; [done|].
  destruct (Ascii.eqb c sep); [done|]. by destruct (Str.split sep s).
Qed.

Lemma join_split sep s : Str.join (String sep EmptyString) (Str.split sep s) = s.
Proof.
  induction s as [|c s IH]; simpl; [done|].
  pose proof (split_nonempty sep s) as Hne.
  destruct (Ascii.eqb c sep) eqn:Hc.
  - apply Ascii.eqb_eq in Hc as ->.
    destruct (Str.split sep s) as [|h t]; [done|]. simpl in *. by rewrite IH.
  - destruct (Str.split sep s) as [|h t]; [done|].
    destruct t; simpl in *; by rewrite <- IH.
Qed.

Lemma split_no_sep sep s :
  Forall (λ part, Str.contains sep part = false) (Str.split sep s).
Proof.
  induction s as [|c s IH]; simpl; [by repeat constructor|].
  destruct (Ascii.eqb c sep) eqn:Hc; [by constructor|].
  destruct (Str.split sep s) as [|h t]; simpl.
  - repeat constructor. simpl. by rewrite Hc.
  - inversion IH; subst. constructor; [|done]. simpl. by rewrite Hc.
Qed.

Lemma split_without_sep sep s :
  Str.contains sep s = false → Str.split sep s = [s].
Proof.
  induction s as [|c s IH]; simpl; [done|].
  intros [Hc Hs]%orb_false_iff. rewrite Hc, IH; done.
Qed.

Lemma split_single sep s : length (Str.split sep s) = 1 → Str.split sep s = [s].
Proof.
  intros Hlen. pose proof (join_split sep s) as Hjoin.
  destruct (Str.split sep s) as [|h [|? ?]]; simpl in *; try done. by subst.
Qed.

Lemma parse_plain part : plain part → PurePath.parse part = mkPath Relative [part].
Proof.
  intros (Hne & Hdot & Hslash). unfold PurePath.parse.
  rewrite split_without_sep by done. f_equal.
  - destruct part as [|c part]; [done|]. simpl in Hslash.
    apply orb_false_iff in Hslash as [Hc _].
    unfold PurePath.splitroot.
    destruct (ascii_dec c "/") as [->|Hc']; [done|].
    destruct c as [[] [] [] [] [] [] [] []]; done.
  - assert (PurePath.keep_part part = true) as Hkeep.
    { unfold PurePath.keep_part.
      apply andb_true_iff; split; apply negb_true_iff, String.eqb_neq; done. }
    rewrite filter_cons, decide_True by done. done.
Qed.

Lemma join_plain p part : plain part → p </> part = extend p [part].
Proof. intros H. unfold PurePath.join. by rewrite parse_plain. Qed.

Lemma of_segments_plain_from p parts :
  Forall plain parts → fold_left PurePath.join parts p = extend p parts.
Proof.
  revert p. induction parts as [|x parts IH]; intros p Hall; simpl.
  - unfold extend. rewrite app_nil_r. by destruct p.
  - inversion Hall; subst. rewrite IH, join_plain by done.
    unfold extend; simpl. by rewrite <- app_assoc.
Qed.

Lemma joinpath_of_segments_plain p parts :
  Forall plain parts →
  PurePath.joinpath p (PurePath.of_segments parts) = extend p parts.
Proof.
  intros Hall. unfold PurePath.of_segments.
  by rewrite of_segments_plain_from.
Qed.

Lemma Forall_removelast {A} (P : A → Prop) (l : list A) :
  Forall P l → Forall P (removelast l).
Proof.
  induction 1 as [|x l Hx Hl IH]; simpl; [constructor|].
  destruct l; by constructor.
Qed.

(** C2.  The components of a module name are the pieces between its dots.
    With more than one component, the package directory is the source root
    joined with the first one, the extension directory is the source root
    joined with all but the last, and the leaf name is the last one.  With one
    component [m], both directories are the source root joined with [m] and
    the leaf name is [m].  Where the components are plain directory names,
    joining appends them to the components of the source root. *)
Theorem resolve_rust_module_layout (r : Path) (name : string) :
  let parts := Str.split "." name in
  Str.join "." parts = name ∧
  Forall (λ part, Str.contains "." part = false) parts ∧
  (1 < length parts →
     _resolve_rust_module r name
     = (r </> first_part parts,
        PurePath.joinpath r (PurePath.of_segments (removelast parts)),
        last_part parts)) ∧
  (length parts = 1 →
     parts = [name] ∧ _resolve_rust_module r name = (r </> name, r </> name, name)) ∧
  (Forall plain parts →
     r </> first_part parts = extend r [first_part parts] ∧
     PurePath.joinpath r (PurePath.of_segments (removelast parts))
     = extend r (removelast parts)).
Proof.
  intros parts. split; [apply join_split|]. split; [apply split_no_sep|].
  repeat split.
  - intros Hlen. unfold _resolve_rust_module. fold parts.
    by rewrite (proj2 (Nat.ltb_lt _ _) Hlen).
  - by apply split_single.
  - unfold _resolve_rust_module. fold parts. rewrite H. done.
  - apply join_plain. pose proof (split_nonempty "." name) as Hne. fold parts in Hne.
    destruct parts; [done|]. by inversion H.
  - by apply joinpath_of_segments_plain, Forall_removelast.
Qed.

Lemma resolve_rust_module_layout_witness :
  _resolve_rust_module (Sample.at_root ["r"]) "pkg.sub.ext"
  = (Sample.at_root ["r"; "pkg"], Sample.at_root ["r"; "pkg"; "sub"], "ext") ∧
  _resolve_rust_module (Sample.at_root ["r"]) "ext"
  = (Sample.at_root ["r"; "ext"], Sample.at_root ["r"; "ext"], "ext").
Proof.
  split.
  - apply (resolve_rust_module_layout (Sample.at_root ["r"]) "pkg.sub.ext"). simpl. lia.
  - apply (resolve_rust_module_layout (Sample.at_root ["r"]) "ext"). reflexivity.
Defined.

(** ** The resolved record (C3, C9) *)

Lemma bind_ret {A B} (a : A) (f : A → M B) : bind (ret a) f = f a.
Proof. unfold bind, ret. by destruct (f a). Qed.

Lemma bind_raise {A B} (e : exn) (f : A → M B) : bind (raise e) f = raise e.
Proof. done. Qed.

(** [exists] and [is_file] log nothing, and raise nothing but [OSError]. *)
Lemma path_exists_fst w p b : fst (path_exists w p) = Ok b → path_exists w p = ret b.
Proof.
  unfold path_exists. destruct (nodes w !! p) as [[]|]; simpl; by intros [= <-].
Qed.

Lemma path_exists_raises w p e :
  fst (path_exists w p) = Raise e → path_exists w p = raise (OSError p) ∧ e = OSError p.
Proof.
  unfold path_exists. destruct (nodes w !! p) as [[]|]; simpl; by intros [= <-].
Qed.

Lemma path_exists_cases w p :
  path_exists w p = ret true ∨ path_exists w p = ret false ∨
  path_exists w p = raise (OSError p).
Proof. unfold path_exists. destruct (nodes w !! p) as [[]|]; auto. Qed.

Lemma path_is_file_fst w p b : fst (path_is_file w p) = Ok b → path_is_file w p = ret b.
Proof.
  unfold path_is_file. destruct (nodes w !! p) as [[]|]; simpl; by intros [= <-].
Qed.

Lemma path_is_file_cases w p :
  path_is_file w p = ret true ∨ path_is_file w p = ret false ∨
  path_is_file w p = raise (OSError p).
Proof. unfold path_is_file. destruct (nodes w !! p) as [[]|]; auto. Qed.

Lemma path_exists_file w p data :
  nodes w !! p = Some (File data) → path_exists w p = ret true.
Proof. unfold path_exists. by intros ->. Qed.

Lemma path_exists_missing w p : nodes w !! p = None → path_exists w p = ret false.
Proof. unfold path_exists. by intros ->. Qed.

Lemma load_ok w path file l :
  TomlFile.load w path = (Ok file, l) →
  ∃ data, nodes w !! path = Some (File data) ∧ file = mk_TomlFile path data ∧ l = [].
Proof.
  unfold TomlFile.load. destruct (nodes w !! path) as [[]|]; try discriminate.
  intros [= <- <-]. eauto.
Qed.

Lemma load_file w path data :
  nodes w !! path = Some (File data) →
  TomlFile.load w path = (Ok (mk_TomlFile path data), []).
Proof. unfold TomlFile.load. by intros ->. Qed.

Lemma resolve_project_ok w project_dir project l :
  _resolve_project w project_dir = (Ok project, l) →
  resolution w project_dir project.
Proof.
  unfold _resolve_project.
  intros (pyproject_found & l0 & l0' & _ & H & ->)%bind_ok.
  destruct pyproject_found; simpl in H; [|discriminate].
  apply bind_ok in H as (pyproject & l1 & l2 & Hload & H & ->).
  apply load_ok in Hload as (pydata & Hpy & -> & ->).
  apply bind_ok in H as (manifest & l3 & l4 & Hfind & H & ->).
  destruct manifest as [manifest_path|]; [|discriminate].
  apply bind_ok in H as (cargo & l5 & l6 & Hload & H & ->).
  apply load_ok in Hload as (cdata & Hcargo & -> & ->).
  apply bind_ok in H as (name & l7 & l8 & Hname & H & ->).
  destruct name as [name|]; [|discriminate].
  apply bind_ok in H as (root & l9 & l10 & Hroot & H & ->).
  destruct (_resolve_rust_module root name) as [[pm ed] leaf] eqn:Hlayout.
  apply bind_ok in H as (deps & l11 & l12 & Hdeps & H & ->).
  apply bind_ok in H as (found & l13 & l14 & Hfound & H & ->).
  injection H as <- <-.
  apply (Resolution _ _ _ pydata cdata) with (found := found); simpl; try done.
  - by rewrite Hfind.
  - by rewrite Hname.
  - by rewrite Hroot.
  - by rewrite Hdeps.
  - rewrite Hlayout. simpl. split; [|done]. apply path_exists_fst. by rewrite Hfound.
Qed.

(** C3.  In a record that resolution returns, [python_module] and
    [extension_module_dir] are both present when the package directory the
    layout computes exists on disk, and both absent when it does not. *)
Theorem python_module_and_extension_dir_together
    (w : World) (project_dir : Path) (project : MaturinProject) (l : list log_record) :
  _resolve_project w project_dir = (Ok project, l) →
  let layout := _resolve_rust_module (python_dir project) (module_full_name project) in
  (is_Some (python_module project) ↔ is_Some (extension_module_dir project)) ∧
  (is_Some (python_module project) ↔ path_exists w (fst (fst layout)) = ret true) ∧
  (path_exists w (fst (fst layout)) = ret true →
     python_module project = Some (fst (fst layout)) ∧
     extension_module_dir project = Some (snd (fst layout))) ∧
  (path_exists w (fst (fst layout)) = ret false →
     python_module project = None ∧ extension_module_dir project = None).
Proof.
  intros [? ? _ _ _ _ _ _ found (Hfound & -> & ->) _]%resolve_project_ok layout.
  fold layout in Hfound |- *. rewrite Hfound.
  destruct found; repeat split; intros; try done;
    by (eauto || eapply is_Some_None).
Qed.

Lemma python_module_and_extension_dir_together_witness :
  (python_module mixed_project = Some (Sample.at_root ["proj"; "src"; "my_pkg"]) ∧
   extension_module_dir mixed_project = Some (Sample.at_root ["proj"; "src"; "my_pkg"])) ∧
  (python_module no_marker_project = None ∧ extension_module_dir no_marker_project = None).
Proof.
  split.
  - apply (python_module_and_extension_dir_together Sample.mixed Sample.proj mixed_project []);
      vm_compute; reflexivity.
  - apply (python_module_and_extension_dir_together Sample.no_marker Sample.proj
             no_marker_project []); vm_compute; reflexivity.
Defined.

Lemma resolve_rust_module_names python_dir name :
  let parts := Str.split "." name in
  _resolve_rust_module python_dir name
  = (python_dir </> first_part parts,
     snd (fst (_resolve_rust_module python_dir name)),
     last_part parts).
Proof.
  intros parts. unfold _resolve_rust_module. fold parts.
  destruct (1 <? length parts) eqn:Hlen; simpl; [done|].
  apply Nat.ltb_ge in Hlen. pose proof (split_nonempty "." name) as Hne. fold parts in Hne.
  assert (length parts = 1) as H1 by (destruct parts; simpl in *; [done|lia]).
  apply split_single in H1. fold parts in H1. by rewrite H1.
Qed.

(** C9, as the code has it.  In a record that resolution returns, the module
    name splits on "." into at least one component (it may be the empty
    string, whose only component is empty); the package name is the first
    component and the module name the last one, the leaf name of the layout
    is that last component, and the package directory, where present, is the
    source root joined with the first component. *)
Theorem module_full_name_components
    (w : World) (project_dir : Path) (project : MaturinProject) (l : list log_record) :
  _resolve_project w project_dir = (Ok project, l) →
  let parts := Str.split "." (module_full_name project) in
  1 ≤ length parts ∧
  Str.join "." parts = module_full_name project ∧
  Project.package_name project = first_part parts ∧
  Project.module_name project = last_part parts ∧
  snd (_resolve_rust_module (python_dir project) (module_full_name project))
  = Project.module_name project ∧
  (∀ p, python_module project = Some p →
        p = python_dir project </> Project.package_name project).
Proof.
  intros [? ? _ _ _ _ _ _ found (_ & Hpm & _) _]%resolve_project_ok parts.
  pose proof (split_nonempty "." (module_full_name project)) as Hne. fold parts in Hne.
  split; [destruct parts; simpl; [done|lia]|].
  split; [apply join_split|]. do 2 (split; [done|]).
  pose proof (resolve_rust_module_names (python_dir project) (module_full_name project)) as Hl.
  simpl in Hl. fold parts in Hl. split; [by rewrite Hl|].
  intros p. rewrite Hpm, Hl. clear Hpm. simpl.
  destruct found; [|done]. by intros [= <-].
Qed.

(** Against C9 as stated: the module name of a resolved record can be the
    empty string. *)
Lemma module_full_name_can_be_empty :
  Resolver.resolve empty_name Resolver.init Sample.proj
  = ((Ok (Some empty_name_project), []),
     mkProjectResolver {[ Sample.proj := Some empty_name_project ]}) ∧
  module_full_name empty_name_project = "".
Proof. split; [|done]. vm_compute. reflexivity. Qed.

Lemma module_full_name_components_witness :
  Project.package_name mixed_project = "my_pkg" ∧
  Project.module_name mixed_project = "my_pkg".
Proof.
  pose proof (module_full_name_components Sample.mixed Sample.proj mixed_project []) as H.
  simpl in H. destruct H as (_ & _ & H1 & H2 & _); [vm_compute; reflexivity|].
  split; [exact H1|exact H2].
Defined.

(** ** Source root (C5, C10) *)

Lemma any_init_py_cons_string w project_dir p rest :
  any_init_py w project_dir (TString p :: rest)
  = bind (has_init_py w project_dir p)
      (λ is_file, if is_file then ret true else any_init_py w project_dir rest).
Proof. cbn [any_init_py path_div]. by rewrite bind_ret. Qed.

Lemma any_init_py_bad w project_dir bad rest :
  (∀ s, bad ≠ TString s) → any_init_py w project_dir (bad :: rest) = raise TypeError.
Proof. intros Hbad. destruct bad; try done. by destruct (Hbad s). Qed.

Lemma any_init_py_hit w project_dir p rest :
  has_init_py w project_dir p = ret true →
  any_init_py w project_dir (TString p :: rest) = ret true.
Proof. intros H. by rewrite any_init_py_cons_string, H, bind_ret. Qed.

Lemma any_init_py_skip w project_dir dirs rest :
  Forall (λ p, has_init_py w project_dir p = ret false) dirs →
  any_init_py w project_dir (map TString dirs ++ rest) = any_init_py w project_dir rest.
Proof.
  induction 1 as [|p dirs Hp _ IH]; [done|].
  simpl map. simpl app. by rewrite any_init_py_cons_string, Hp, bind_ret.
Qed.



Lemma any_init_py_raises w project_dir candidates e :
  fst (any_init_py w project_dir candidates) = Raise e →
  e = TypeError ∨ ∃ p, e = OSError p.
Proof.
  induction candidates as [|v candidates IH]; [done|].
  destruct v as [p| | | | | |]; try (simpl; intros [= <-]; by left).
  rewrite any_init_py_cons_string.
  destruct (path_is_file_cases w (project_dir </> p </> "__init__.py"))
    as [Hp|[Hp|Hp]]; unfold has_init_py at 1; rewrite Hp.
  - by rewrite bind_ret.
  - by rewrite bind_ret.
  - rewrite bind_raise. simpl. intros [= <-]. right. by eexists.
Qed.

(** The steps of [_resolve_py_root] from the check of rust/Cargo.toml on. *)
Lemma resolve_py_root_scan w project_dir pyproject project_name :
  config_value pyproject ["tool"; "maturin"; "python-source"] py_str = None →
  config_value pyproject ["project"; "name"] py_str = Some project_name →
  fst (_resolve_py_root w project_dir pyproject)
  = match fst (path_exists w (project_dir </> "rust/Cargo.toml")) with
    | Raise e => Raise e
    | Ok rust_cargo_toml_found =>
        match fst (any_init_py w project_dir
                     (TString (src_package project_name)
                      :: match config_value pyproject
                                 ["tool"; "maturin"; "python-packages"] py_list with
                         | Some packages => packages
                         | None => []
                         end)) with
        | Ok python_src_found =>
            Ok (if rust_cargo_toml_found && python_src_found
                then project_dir </> "src" else project_dir)
        | Raise e => Raise e
        end
    end.
Proof.
  intros Hsrc Hname. unfold _resolve_py_root.
  erewrite bind_fst_ok by by apply get_value_config. rewrite Hsrc.
  erewrite bind_fst_ok by by apply get_value_config. rewrite Hname.
  destruct (fst (path_exists w (project_dir </> "rust/Cargo.toml")))
    as [rust_found|e] eqn:Hrust; [|by erewrite bind_fst_raise].
  erewrite bind_fst_ok by done.
  erewrite bind_fst_ok by by apply get_value_or_default_config.
  fold (src_package project_name).
  destruct (fst (any_init_py _ _ _)) as [found|e] eqn:Hscan.
  - erewrite bind_fst_ok by done. by destruct (_ && _).
  - by erewrite bind_fst_raise.
Qed.


Lemma split_prefix sep a b :
  Str.contains sep a = false →
  Str.split sep (a +:+ String sep b) = a :: Str.split sep b.
Proof.
  induction a as [|c a IH]; simpl.
  - intros _. by rewrite Ascii.eqb_refl.
  - intros [Hc Ha]%orb_false_iff. by rewrite Hc, IH.
Qed.

(** For a package name that is a plain directory name, the first candidate
    is the directory src/<package_name> of the project. *)
Lemma join_src_package project_dir project_name :
  plain (Str.replace "-" "_" project_name) →
  project_dir </> src_package project_name
  = extend project_dir ["src"; Str.replace "-" "_" project_name].
Proof.
  intros (Hne & Hdot & Hslash). unfold src_package, PurePath.join, PurePath.parse.
  change ("src/" +:+ Str.replace "-" "_" project_name +:+ "/")
    with ("src" +:+ String "/" (Str.replace "-" "_" project_name +:+ String "/" "")).
  rewrite !split_prefix by done. simpl Str.split.
  rewrite !filter_cons, filter_nil.
  rewrite decide_True by done.
  rewrite decide_True
    by (unfold PurePath.keep_part;
        apply andb_true_iff; split; apply negb_true_iff, String.eqb_neq; done).
  rewrite decide_False by done. done.
Qed.




Example mixed_layout_inference :
  _resolve_py_root Sample.mixed Sample.proj mixed_pyproject_file
  = (Ok (Sample.at_root ["proj"; "src"]), []) ∧
  _resolve_py_root Sample.no_marker Sample.proj mixed_pyproject_file
  = (Ok Sample.proj, []) ∧
  _resolve_py_root no_nested_manifest Sample.proj mixed_pyproject_file
  = (Ok Sample.proj, []).
Proof. repeat split; vm_compute; reflexivity. Qed.

(** A check of the disk that fails otherwise than by "not found" raises out
    of the function. *)
Example marker_check_raises :
  _resolve_py_root no_access_marker Sample.proj mixed_pyproject_file
  = (Raise (OSError (Sample.at_root ["proj"; "src"; "my_pkg"; "__init__.py"])), []).
Proof. vm_compute. reflexivity. Qed.

(** ** Exceptions that leave [resolve] (C10, C7) *)

(** [_resolve_project] step by step, once both files are known to load. *)
Lemma resolve_project_steps w project_dir pydata manifest_path cdata :
  let pyproject := mk_TomlFile (project_dir </> "pyproject.toml") pydata in
  let cargo := mk_TomlFile manifest_path cdata in
  nodes w !! (project_dir </> "pyproject.toml") = Some (File pydata) →
  fst (find_cargo_manifest w project_dir) = Ok (Some manifest_path) →
  nodes w !! manifest_path = Some (File cdata) →
  fst (_resolve_project w project_dir)
  = match first_tier pyproject cargo with
    | None => Raise (ProjectResolveError "could not resolve module_full_name")
    | Some name =>
        match fst (_resolve_py_root w project_dir pyproject) with
        | Raise e => Raise e
        | Ok root =>
            match fst (_get_immediate_path_dependencies w
                         (PurePath.parent manifest_path) cargo) with
            | Raise e => Raise e
            | Ok dependencies =>
                let layout := _resolve_rust_module root name in
                match fst (path_exists w (fst (fst layout))) with
                | Raise e => Raise e
                | Ok found =>
                    Ok (mkMaturinProject manifest_path name root
                          (if found then Some (fst (fst layout)) else None)
                          (if found then Some (snd (fst layout)) else None)
                          dependencies None)
                end
            end
        end
    end.
Proof.
  intros pyproject cargo Hpy Hfind Hcargo. unfold _resolve_project.
  rewrite (path_exists_file _ _ _ Hpy), bind_ret. cbn [negb].
  rewrite (load_file _ _ _ Hpy). fold pyproject.
  erewrite bind_fst_ok by done.
  erewrite bind_fst_ok by done. cbv beta iota.
  rewrite (load_file _ _ _ Hcargo). fold cargo.
  erewrite bind_fst_ok by done.
  erewrite bind_fst_ok by apply resolve_module_name_first_tier.
  destruct (first_tier pyproject cargo) as [name|]; [|done].
  destruct (fst (_resolve_py_root w project_dir pyproject)) as [root|e] eqn:Hroot;
    [|by erewrite bind_fst_raise].
  erewrite bind_fst_ok by done.
  destruct (_resolve_rust_module root name) as [[pm ed] leaf].
  destruct (fst (_get_immediate_path_dependencies _ _ _)) as [deps|e] eqn:Hdeps;
    [|by erewrite bind_fst_raise].
  erewrite bind_fst_ok by done. simpl.
  destruct (fst (path_exists w pm)) as [found|e] eqn:Hfound;
    [by erewrite bind_fst_ok|by erewrite bind_fst_raise].
Qed.

(** On a directory that is not cached, an exception other than
    [_ProjectResolveError] leaves [resolve], and the cache stays as it was. *)
Lemma resolve_escapes w self project_dir e :
  _resolved_project_cache self !! project_dir = None →
  fst (_resolve_project w project_dir) = Raise e →
  (∀ msg, e ≠ ProjectResolveError msg) →
  fst (fst (Resolver.resolve w self project_dir)) = Raise e ∧
  snd (Resolver.resolve w self project_dir) = self.
Proof.
  intros Hmiss Hres Hne. unfold Resolver.resolve. rewrite Hmiss.
  destruct (_resolve_project w project_dir) as [[project|e'] l]; simpl in *; [done|].
  injection Hres as ->. destruct e; try done. by destruct (Hne msg).
Qed.

(** C10, as the code has it.  Let [python-source] be unset, [project.name]
    be declared, [python-packages] be a list whose first element that is not
    a string is [bad], and the check of rust/Cargo.toml return.  If the
    checks of [__init__.py] under src/<package_name> and under every
    directory listed before [bad] all answer that it is not a file, the scan
    reaches [bad] and raises [TypeError], which leaves [resolve] uncaught and
    uncached.  If one of them answers that it is a file, those before it
    answering that it is not, [bad] is never looked at and the source root is
    resolved as usual. *)
Theorem non_string_python_package
    (w : World) (self : ProjectResolver) (project_dir : Path)
    (pydata : dict) (manifest_path : Path) (cdata : dict)
    (name : string) (dirs : list string) (bad : toml) (rest : list toml)
    (rust_cargo_toml_found : bool) :
  let pyproject := mk_TomlFile (project_dir </> "pyproject.toml") pydata in
  let no_marker p := path_is_file w (project_dir </> p </> "__init__.py") = ret false in
  config_value pyproject ["tool"; "maturin"; "python-source"] py_str = None →
  config_value pyproject ["project"; "name"] py_str = Some name →
  config_value pyproject ["tool"; "maturin"; "python-packages"] py_list
  = Some (map TString dirs ++ bad :: rest) →
  (∀ s, bad ≠ TString s) →
  path_exists w (project_dir </> "rust/Cargo.toml") = ret rust_cargo_toml_found →
  (Forall no_marker (src_package name :: dirs) →
   fst (_resolve_py_root w project_dir pyproject) = Raise TypeError ∧
   (_resolved_project_cache self !! project_dir = None →
    nodes w !! (project_dir </> "pyproject.toml") = Some (File pydata) →
    fst (find_cargo_manifest w project_dir) = Ok (Some manifest_path) →
    nodes w !! manifest_path = Some (File cdata) →
    fst (fst (Resolver.resolve w self project_dir)) = Raise TypeError ∧
    snd (Resolver.resolve w self project_dir) = self)) ∧
  (∀ before p after,
     src_package name :: dirs = before ++ p :: after →
     Forall no_marker before →
     path_is_file w (project_dir </> p </> "__init__.py") = ret true →
     fst (_resolve_py_root w project_dir pyproject)
     = Ok (if rust_cargo_toml_found then project_dir </> "src" else project_dir)).
Proof.
  intros pyproject no_marker Hsrc Hname Hpackages Hbad Hrust.
  assert (fst (_resolve_py_root w project_dir pyproject)
          = match fst (any_init_py w project_dir
                         (map TString (src_package name :: dirs) ++ bad :: rest)) with
            | Ok found =>
                Ok (if rust_cargo_toml_found && found
                    then project_dir </> "src" else project_dir)
            | Raise e => Raise e
            end) as Hroot.
  { rewrite (resolve_py_root_scan _ _ _ name) by done. by rewrite Hpackages, Hrust. }
  split.
  - intros Hnone.
    assert (fst (_resolve_py_root w project_dir pyproject) = Raise TypeError) as Hraise.
    { rewrite Hroot, any_init_py_skip by done. by rewrite any_init_py_bad. }
    split; [done|]. intros Hmiss Hpy Hfind Hcargo.
    apply resolve_escapes; [done| |done].
    rewrite (resolve_project_steps _ _ pydata manifest_path cdata) by done.
    fold pyproject. rewrite Hraise.
    unfold first_tier. fold pyproject. rewrite Hname.
    destruct (config_value pyproject ["tool"; "maturin"; "module-name"] py_str); [done|].
    by destruct (config_value _ ["lib"; "name"] py_str).
  - intros before p after Hsplit Hbefore Hp. rewrite Hroot, Hsplit.
    rewrite map_app, <- app_assoc. simpl map. simpl app.
    rewrite any_init_py_skip by done.
    rewrite any_init_py_hit by done. simpl. by rewrite andb_true_r.
Qed.

(** Against C10 as stated: a non-string element of [python-packages] that
    raises nothing, because the marker of src/my_pkg is found first. *)
Lemma non_string_python_package_ignored :
  config_value bad_packages_file ["tool"; "maturin"; "python-packages"] py_list
  = Some [TInteger 5] ∧
  _resolve_py_root bad_package_skipped Sample.proj bad_packages_file
  = (Ok Sample.proj, []) ∧
  fst (Resolver.resolve bad_package_skipped Resolver.init Sample.proj)
  = (Ok (Some bad_package_skipped_project), []).
Proof. repeat split; vm_compute; reflexivity. Qed.

Lemma non_string_python_package_witness :
  fst (_resolve_py_root bad_package_reached Sample.proj bad_packages_file)
  = Raise TypeError ∧
  fst (fst (Resolver.resolve bad_package_reached Resolver.init Sample.proj))
  = Raise TypeError ∧
  snd (Resolver.resolve bad_package_reached Resolver.init Sample.proj) = Resolver.init.
Proof.
  pose proof (non_string_python_package bad_package_reached Resolver.init Sample.proj
                bad_packages_pyproject (Sample.at_root ["proj"; "Cargo.toml"])
                Sample.mixed_cargo "my-pkg" [] (TInteger 5) [] false) as H.
  cbv zeta in H.
  destruct H as [Hreached _]; [reflexivity..|done|vm_compute; reflexivity|].
  destruct Hreached as [Hroot Hresolve].
  { repeat constructor. }
  split; [exact Hroot|].
  apply Hresolve; vm_compute; reflexivity.
Defined.

(** On a directory that is not cached, [resolve] returns what
    [_resolve_project] returns, with [_ProjectResolveError] turned into
    [None]. *)
Lemma resolve_miss_ok w self project_dir r :
  _resolved_project_cache self !! project_dir = None →
  fst (fst (Resolver.resolve w self project_dir)) = Ok r →
  match r with
  | Some project => fst (_resolve_project w project_dir) = Ok project
  | None => ∃ msg, fst (_resolve_project w project_dir) = Raise (ProjectResolveError msg)
  end.
Proof.
  intros Hmiss. unfold Resolver.resolve. rewrite Hmiss.
  destruct (_resolve_project w project_dir) as [[project|e] l]; simpl.
  - by intros [= <-].
  - destruct e; simpl; intros [= <-]. eauto.
Qed.

Lemma load_raises w path e :
  fst (TomlFile.load w path) = Raise e →
  e = OSError path ∨ e = TOMLDecodeError path ∨ e = UnicodeDecodeError path.
Proof.
  unfold TomlFile.load. destruct (nodes w !! path) as [[]|]; simpl; intros [= <-]; auto.
Qed.

Lemma load_raises_no_resolve_error w path e msg :
  fst (TomlFile.load w path) = Raise e → e ≠ ProjectResolveError msg.
Proof. intros [->|[->| ->]]%load_raises; done. Qed.

(** C7, as the code has it.  On a directory that is not cached: when
    pyproject.toml exists and loading it raises, or when it loads, a manifest
    is chosen and loading the manifest raises, the exception of the load
    leaves [resolve] and the cache stays as it was.  A record that [resolve]
    returns is a complete resolution, and [None] is returned only where
    [_resolve_project] raised [_ProjectResolveError]. *)
Theorem load_failure_leaves_resolve
    (w : World) (self : ProjectResolver) (project_dir : Path) :
  _resolved_project_cache self !! project_dir = None →
  (∀ e, path_exists w (project_dir </> "pyproject.toml") = ret true →
        fst (TomlFile.load w (project_dir </> "pyproject.toml")) = Raise e →
        Resolver.resolve w self project_dir = ((Raise e, []), self)) ∧
  (∀ pydata manifest_path e,
        nodes w !! (project_dir </> "pyproject.toml") = Some (File pydata) →
        fst (find_cargo_manifest w project_dir) = Ok (Some manifest_path) →
        fst (TomlFile.load w manifest_path) = Raise e →
        fst (fst (Resolver.resolve w self project_dir)) = Raise e ∧
        snd (Resolver.resolve w self project_dir) = self) ∧
  (∀ project, fst (fst (Resolver.resolve w self project_dir)) = Ok (Some project) →
        resolution w project_dir project) ∧
  (fst (fst (Resolver.resolve w self project_dir)) = Ok None →
        ∃ msg, fst (_resolve_project w project_dir) = Raise (ProjectResolveError msg)).
Proof.
  intros Hmiss. split; [|split; [|split]].
  - intros e Hexists Hload. unfold Resolver.resolve. rewrite Hmiss.
    assert (_resolve_project w project_dir = (Raise e, [])) as ->.
    { unfold _resolve_project. rewrite Hexists, bind_ret. cbn [negb].
      unfold TomlFile.load in *.
      destruct (nodes w !! _) as [[]|]; simpl in *; try done; by injection Hload as <-. }
    apply load_raises in Hload. by destruct Hload as [-> |[-> | ->]].
  - intros pydata manifest_path e Hpy Hfind Hload.
    apply resolve_escapes; [done| |].
    + unfold _resolve_project. rewrite (path_exists_file _ _ _ Hpy), bind_ret. cbn [negb].
      rewrite (load_file _ _ _ Hpy).
      erewrite bind_fst_ok by done.
      erewrite bind_fst_ok by done. cbv beta iota.
      by erewrite bind_fst_raise.
    + intros msg. by eapply load_raises_no_resolve_error.
  - intros project Hres. apply (resolve_miss_ok _ _ _ _ Hmiss) in Hres.
    destruct (_resolve_project w project_dir) as [r l] eqn:Hp. simpl in Hres. subst r.
    by eapply resolve_project_ok.
  - intros Hres. by apply (resolve_miss_ok _ _ _ _ Hmiss) in Hres.
Qed.

(** Against C7 as stated: an unparsable file makes [resolve] raise instead of
    returning [None]. *)
Lemma unparsable_file_raises :
  path_exists unparsable_pyproject (Sample.proj </> "pyproject.toml") = ret true ∧
  Resolver.resolve unparsable_pyproject Resolver.init Sample.proj
  = ((Raise (TOMLDecodeError (Sample.at_root ["proj"; "pyproject.toml"])), []),
     Resolver.init) ∧
  find_cargo_manifest unparsable_manifest Sample.proj
  = (Ok (Some (Sample.at_root ["proj"; "Cargo.toml"])), []) ∧
  Resolver.resolve unparsable_manifest Resolver.init Sample.proj
  = ((Raise (TOMLDecodeError (Sample.at_root ["proj"; "Cargo.toml"])), []),
     Resolver.init).
Proof. repeat split; vm_compute; reflexivity. Qed.

Lemma load_failure_leaves_resolve_witness :
  Resolver.resolve unparsable_pyproject Resolver.init Sample.proj
  = ((Raise (TOMLDecodeError (Sample.at_root ["proj"; "pyproject.toml"])), []),
     Resolver.init) ∧
  fst (fst (Resolver.resolve unparsable_manifest Resolver.init Sample.proj))
  = Raise (TOMLDecodeError (Sample.at_root ["proj"; "Cargo.toml"])).
Proof.
  split.
  - apply (load_failure_leaves_resolve unparsable_pyproject Resolver.init Sample.proj);
      vm_compute; reflexivity.
  - eapply (load_failure_leaves_resolve unparsable_manifest Resolver.init Sample.proj);
      vm_compute; reflexivity.
Defined.

(** ** The cache (C8) *)

(** C8, as the code has it.  Once [resolve] has returned for a directory, be
    it a record or [None], a second call on the resolver it left behind
    returns the same value whatever the disk holds by then, logs nothing and
    leaves the resolver as it is.  A first call that raised has stored
    nothing: the directory was not cached, the exception is the one
    [_resolve_project] raised and is no [_ProjectResolveError], the resolver
    is as it was, and the second call runs [_resolve_project] on the disk it
    finds, returning the record that gives or raising what that raises. *)
Theorem resolve_twice_cached
    (w1 w2 : World) (self self' : ProjectResolver) (project_dir : Path)
    (x : M (option MaturinProject)) :
  Resolver.resolve w1 self project_dir = (x, self') →
  (∀ r l, x = (Ok r, l) →
     Resolver.resolve w2 self' project_dir = ((Ok r, []), self')) ∧
  (∀ e l, x = (Raise e, l) →
     self' = self ∧
     _resolved_project_cache self !! project_dir = None ∧
     _resolve_project w1 project_dir = (Raise e, l) ∧
     (∀ msg, e ≠ ProjectResolveError msg) ∧
     (∀ project l2, _resolve_project w2 project_dir = (Ok project, l2) →
        fst (Resolver.resolve w2 self' project_dir) = (Ok (Some project), l2)) ∧
     (∀ e2 l2, _resolve_project w2 project_dir = (Raise e2, l2) →
        (∀ msg, e2 ≠ ProjectResolveError msg) →
        Resolver.resolve w2 self' project_dir = ((Raise e2, l2), self'))).
Proof.
  unfold Resolver.resolve.
  destruct (_resolved_project_cache self !! project_dir) as [cached|] eqn:Hcache.
  - intros [= <- <-]. split; [|done]. intros r l [= <- <-]. by rewrite Hcache.
  - destruct (_resolve_project w1 project_dir) as [[project|e] l1].
    + intros [= <- <-]. split; [|done]. intros r l [= <- <-]. simpl.
      by rewrite lookup_insert_eq.
    + intros Hcall. split.
      * intros r l ->. destruct e; try discriminate. injection Hcall as <- <- <-. simpl.
        by rewrite lookup_insert_eq.
      * intros e' l ->.
        assert (e' = e ∧ l = l1 ∧ self' = self ∧ ∀ msg, e ≠ ProjectResolveError msg)
          as (-> & -> & -> & Hother)
          by (destruct e; try discriminate; by injection Hcall as <- <- <-).
        rewrite Hcache. repeat split; try done.
        -- intros project l2 ->. done.
        -- intros e2 l2 -> He2. destruct e2; try done. by destruct (He2 msg).
Qed.

Lemma resolve_twice_cached_witness :
  Resolver.resolve Sample.no_marker
    (snd (Resolver.resolve Sample.mixed Resolver.init Sample.proj)) Sample.proj
  = ((Ok (Some mixed_project), []),
     snd (Resolver.resolve Sample.mixed Resolver.init Sample.proj)) ∧
  Resolver.resolve Sample.mixed
    (snd (Resolver.resolve unparsable_pyproject Resolver.init (Sample.at_root ["nowhere"])))
    (Sample.at_root ["nowhere"])
  = ((Ok None, []),
     snd (Resolver.resolve unparsable_pyproject Resolver.init (Sample.at_root ["nowhere"]))) ∧
  fst (Resolver.resolve Sample.mixed
         (snd (Resolver.resolve unparsable_pyproject Resolver.init Sample.proj)) Sample.proj)
  = (Ok (Some mixed_project), []).
Proof.
  split; [|split].
  - apply (proj1 (resolve_twice_cached Sample.mixed Sample.no_marker Resolver.init _
                    Sample.proj _ (surjective_pairing _))
             (Some mixed_project) []).
    vm_compute. reflexivity.
  - apply (proj1 (resolve_twice_cached unparsable_pyproject Sample.mixed Resolver.init _
                    (Sample.at_root ["nowhere"]) _ (surjective_pairing _))
             None
             [Resolver.resolve_failed (Sample.at_root ["nowhere"]) "no pyproject.toml found"]).
    vm_compute. reflexivity.
  - destruct (proj2 (resolve_twice_cached unparsable_pyproject Sample.mixed Resolver.init _
                       Sample.proj _ (surjective_pairing _))
                (TOMLDecodeError (Sample.proj </> "pyproject.toml")) [])
      as (_ & _ & _ & _ & Hagain & _); [vm_compute; reflexivity|].
    apply Hagain. vm_compute. reflexivity.
Defined.

(** Against C8 as stated: a first call that raises caches nothing, so the
    second call on the resolver it leaves reads the disk again, raising again
    on the same disk and returning what it finds on another. *)
Lemma failed_resolve_not_cached :
  let first := Resolver.resolve unparsable_pyproject Resolver.init Sample.proj in
  fst first = (Raise (TOMLDecodeError (Sample.proj </> "pyproject.toml")), []) ∧
  snd first = Resolver.init ∧
  fst (Resolver.resolve unparsable_pyproject (snd first) Sample.proj)
  = (Raise (TOMLDecodeError (Sample.proj </> "pyproject.toml")), []) ∧
  fst (Resolver.resolve Sample.mixed (snd first) Sample.proj)
  = (Ok (Some mixed_project), []) ∧
  fst (Resolver.resolve Sample.no_marker (snd first) Sample.proj)
  = (Ok (Some no_marker_project), []).
Proof. repeat split; vm_compute; reflexivity. Qed.

(** The spec's sentinel test: the second call sees another disk and still
    answers from the first one, where a fresh resolver answers otherwise. *)
Example stale_result_served :
  fst (Resolver.resolve Sample.no_marker
         (snd (Resolver.resolve Sample.mixed Resolver.init Sample.proj)) Sample.proj)
  = (Ok (Some mixed_project), []) ∧
  fst (Resolver.resolve Sample.no_marker Resolver.init Sample.proj)
  = (Ok (Some no_marker_project), []).
Proof. split; vm_compute; reflexivity. Qed.

(** ** The order on paths *)

Section PathOrder.

Lemma ascii_compare_eq a b : Ascii.compare a b = Eq ↔ a = b.
Proof.
  split; [apply Ascii.compare_eq_iff|]. intros ->. apply N.compare_refl.
Qed.

Lemma ascii_compare_opp a b : Ascii.compare b a = CompOpp (Ascii.compare a b).
Proof. apply Ascii.compare_antisym. Qed.

Lemma ascii_compare_trans a b c r :
  Ascii.compare a b = r → Ascii.compare b c = r → Ascii.compare a c = r.
Proof.
  unfold Ascii.compare. destruct r; intros H1 H2.
  - apply N.compare_eq_iff in H1, H2. apply N.compare_eq_iff. congruence.
  - apply N.compare_lt_iff in H1, H2. apply N.compare_lt_iff.
    by apply N.lt_trans with (N_of_ascii b).
  - apply N.compare_gt_iff in H1, H2. apply N.compare_gt_iff.
    by apply N.lt_trans with (N_of_ascii b).
Qed.

Lemma list_ascii_inj s t : list_ascii_of_string s = list_ascii_of_string t → s = t.
Proof.
  intros H. rewrite <- (string_of_list_ascii_of_string s),
                    <- (string_of_list_ascii_of_string t). by rewrite H.
Qed.

Lemma str_compare_eq s t : PurePath.str_compare s t = Eq ↔ s = t.
Proof.
  unfold PurePath.str_compare. rewrite list_compare_refl by apply ascii_compare_eq.
  split; [apply list_ascii_inj|by intros ->].
Qed.

Lemma str_compare_opp s t :
  PurePath.str_compare t s = CompOpp (PurePath.str_compare s t).
Proof.
  apply list_compare_antisym; [apply ascii_compare_eq|apply ascii_compare_opp].
Qed.

Lemma str_compare_trans s t u r :
  PurePath.str_compare s t = r → PurePath.str_compare t u = r →
  PurePath.str_compare s u = r.
Proof.
  apply list_compare_trans;
    [apply ascii_compare_eq|apply ascii_compare_trans|apply ascii_compare_opp].
Qed.

Lemma path_compare_eq p q : PurePath.compare p q = Eq ↔ PurePath.cparts p = PurePath.cparts q.
Proof. apply list_compare_refl, str_compare_eq. Qed.

Lemma path_compare_opp p q : PurePath.compare q p = CompOpp (PurePath.compare p q).
Proof.
  apply list_compare_antisym; [apply str_compare_eq|apply str_compare_opp].
Qed.

Lemma path_compare_trans p q r c :
  PurePath.compare p q = c → PurePath.compare q r = c → PurePath.compare p r = c.
Proof.
  apply list_compare_trans;
    [apply str_compare_eq|apply str_compare_trans|apply str_compare_opp].
Qed.

#[global] Instance path_le_dec : RelDecision PurePath.le.
Proof. intros p q. unfold PurePath.le. apply _. Defined.

#[global] Instance path_le_total : Total PurePath.le.
Proof.
  intros p q. unfold PurePath.le. rewrite (path_compare_opp p q).
  destruct (PurePath.compare p q); simpl; auto.
Qed.

#[global] Instance path_le_trans : Transitive PurePath.le.
Proof.
  intros p q r. unfold PurePath.le. intros Hpq Hqr Hpr.
  destruct (PurePath.compare p q) eqn:H1; [| |done].
  - apply path_compare_eq in H1. unfold PurePath.compare in *. by rewrite H1 in Hpr.
  - destruct (PurePath.compare q r) eqn:H2; [| |done].
    + apply path_compare_eq in H2. unfold PurePath.compare in *.
      rewrite <- H2 in Hpr. congruence.
    + pose proof (path_compare_trans _ _ _ _ H1 H2). congruence.
Qed.

Lemma cparts_inj p q :
  well_formed p → well_formed q → PurePath.cparts p = PurePath.cparts q → p = q.
Proof.
  destruct p as [a ps], q as [b qs]. unfold well_formed, PurePath.cparts; simpl.
  intros Hp Hq H.
  destruct a, b; simpl in H; try discriminate; try (by injection H as ->); try congruence.
  all: subst; match goal with
       | H : Forall _ (_ :: _) |- _ => by inversion H
       end.
Qed.

Lemma path_le_antisym p q :
  well_formed p → well_formed q → PurePath.le p q → PurePath.le q p → p = q.
Proof.
  unfold PurePath.le. intros Hp Hq H1 H2. rewrite (path_compare_opp p q) in H2.
  destruct (PurePath.compare p q) eqn:Hc; try done.
  by apply cparts_inj, path_compare_eq.
Qed.

End PathOrder.

(** ** The closure of the path dependencies (C4) *)

Section Closure.

Variable w : World.

Lemma list_pop_None {A} (l : list A) : list_pop l = None → l = [].
Proof.
  unfold list_pop. destruct (rev l) eqn:H; [|done]. intros _.
  apply (f_equal (@rev A)) in H. by rewrite rev_involutive in H.
Qed.

Lemma list_pop_Some {A} (l l' : list A) x : list_pop l = Some (l', x) → l = l' ++ [x].
Proof.
  unfold list_pop. destruct (rev l) eqn:H; [done|]. intros [= <- <-].
  apply (f_equal (@rev A)) in H. by rewrite rev_involutive in H.
Qed.

Lemma search_unfold fuel logged visited to_search :
  search w (S fuel) logged visited to_search
  = match list_pop to_search with
    | None => Some (Ok visited, logged)
    | Some (to_search', dir) =>
        if decide (dir ∈ visited) then search w fuel logged visited to_search'
        else
          match manifest_dependencies w dir with
          | (Ok found, l) =>
              search w fuel (logged ++ l) ({[dir]} ∪ visited) (to_search' ++ found)
          | (Raise e, l) => Some (Raise e, logged ++ l)
          end
    end.
Proof.
  cbn [search]. destruct (list_pop to_search) as [[to_search' dir]|]; [|done].
  destruct (decide (dir ∈ visited)); [done|].
  unfold manifest_dependencies.
  destruct (path_exists_cases w (dir </> "Cargo.toml")) as [H|[H|H]]; rewrite H.
  - by rewrite bind_ret.
  - rewrite bind_ret. unfold ret. by rewrite !app_nil_r.
  - by rewrite bind_raise.
Qed.

(** *** Termination *)

Lemma scan_dependencies_length dir values acc found l :
  scan_dependencies w dir values acc = (Ok found, l) →
  length found ≤ length acc + length values.
Proof.
  revert acc l. induction values as [|v values IH]; intros acc l; simpl.
  - intros [= <- <-]. lia.
  - destruct v as [| | | | | |d]; try (intros H%IH; lia).
    destruct (dict_get "path" d) as [rel|]; [|intros H%IH; lia].
    intros (joined & l1 & l2 & _ & H & _)%bind_ok.
    apply bind_ok in H as (resolved & l3 & l4 & _ & H%IH & _).
    rewrite length_app in H. simpl in H. lia.
Qed.

Lemma manifest_dependencies_length dir found l :
  manifest_dependencies w dir = (Ok found, l) →
  length found ≤ match nodes w !! (dir </> "Cargo.toml") with
                 | Some n => dependency_count n
                 | None => 0
                 end.
Proof.
  unfold manifest_dependencies.
  intros (found_manifest & l0 & l0' & _ & H & _)%bind_ok.
  destruct found_manifest;
    [|injection H as <- <-; simpl; destruct (nodes w !! _); lia].
  apply bind_ok in H as (cargo & l1 & l2 & Hload & Hdeps & _).
  apply load_ok in Hload as (data & Hdata & -> & ->).
  rewrite Hdata.
  unfold _get_immediate_path_dependencies in Hdeps.
  apply bind_ok in Hdeps as (deps & l3 & l4 & Hget & Hscan & _).
  apply scan_dependencies_length in Hscan. simpl in Hscan.
  unfold dict_values in Hscan. rewrite length_map in Hscan.
  assert (fst (TomlFile.get_value_or_default
                 (mk_TomlFile (dir </> "Cargo.toml") data) ["dependencies"] py_dict [])
          = Ok deps) as Hfst by (by rewrite Hget).
  rewrite get_value_or_default_config in Hfst by done.
  injection Hfst as <-. unfold config_value in Hscan. simpl in *.
  destruct (dict_get "dependencies" data) as [[]|]; simpl in *; lia.
Qed.

Lemma total_dependency_count_delete (m : gmap Path node) path n :
  m !! path = Some n →
  total_dependency_count m = dependency_count n + total_dependency_count (delete path m).
Proof.
  intros H. unfold total_dependency_count.
  apply (map_fold_delete_L (λ _ n acc, dependency_count n + acc)); [|done].
  intros. lia.
Qed.

Lemma join_manifest_inj dir dir' :
  dir </> "Cargo.toml" = dir' </> "Cargo.toml" → dir = dir'.
Proof.
  rewrite !join_plain by done. destruct dir, dir'. unfold extend; simpl.
  intros [= -> H%app_inv_tail]. by subst.
Qed.

Lemma search_terminates fuel logged visited to_search (remaining : gmap Path node) :
  (∀ dir n, dir ∉ visited →
            nodes w !! (dir </> "Cargo.toml") = Some n →
            remaining !! (dir </> "Cargo.toml") = Some n) →
  length to_search + total_dependency_count remaining < fuel →
  is_Some (search w fuel logged visited to_search).
Proof.
  revert logged visited to_search remaining.
  induction fuel as [|fuel IH]; intros logged visited to_search remaining Hrem Hfuel; [lia|].
  rewrite search_unfold.
  destruct (list_pop to_search) as [[to_search' dir]|] eqn:Hpop; [|by eauto].
  apply list_pop_Some in Hpop as ->. rewrite length_app in Hfuel. simpl in Hfuel.
  destruct (decide (dir ∈ visited)) as [Hin|Hout].
  { apply (IH _ _ _ remaining); [done|lia]. }
  destruct (manifest_dependencies w dir) as [[found|e] l] eqn:Hdeps; [|by eauto].
  apply manifest_dependencies_length in Hdeps.
  destruct (nodes w !! (dir </> "Cargo.toml")) as [n|] eqn:Hnode.
  - apply (IH _ _ _ (delete (dir </> "Cargo.toml") remaining)).
    + intros dir' n' Hout' Hnode'.
      rewrite lookup_delete_ne.
      * apply Hrem; [set_solver|done].
      * intros Heq%join_manifest_inj. set_solver.
    + rewrite (total_dependency_count_delete remaining _ n) in Hfuel
        by by apply Hrem.
      rewrite length_app. lia.
  - apply (IH _ _ _ remaining).
    + intros dir' n' Hout' Hnode'. apply Hrem; [set_solver|done].
    + rewrite length_app. lia.
Qed.

(** *** What the loop computes *)

Lemma search_invariant_init seeds : search_invariant w seeds ∅ seeds.
Proof.
  repeat split; try set_solver. intros p Hp. by apply reachable_seed.
Qed.

Lemma search_invariant_skip seeds visited to_search dir :
  dir ∈ visited →
  search_invariant w seeds visited (to_search ++ [dir]) →
  search_invariant w seeds visited to_search.
Proof.
  intros Hin (Hv & Hs & Hseeds & Hclosed). repeat split; [done|..].
  - intros p Hp. apply Hs. set_solver.
  - intros p Hp. destruct (Hseeds p Hp) as [|Hq]; [by left|].
    apply elem_of_app in Hq as [| ->%list_elem_of_singleton]; auto.
  - intros d Hd. destruct (Hclosed d Hd) as (found & l & Hdeps & Hfound).
    exists found, l. split; [done|]. intros p Hp.
    destruct (Hfound p Hp) as [|Hq]; [by left|].
    apply elem_of_app in Hq as [| ->%list_elem_of_singleton]; auto.
Qed.

Lemma search_invariant_visit seeds visited to_search dir found l :
  manifest_dependencies w dir = (Ok found, l) →
  search_invariant w seeds visited (to_search ++ [dir]) →
  search_invariant w seeds ({[dir]} ∪ visited) (to_search ++ found).
Proof.
  intros Hdeps (Hv & Hs & Hseeds & Hclosed).
  assert (reachable w seeds dir) as Hdir by (apply Hs; set_solver).
  repeat split.
  - intros p [->%elem_of_singleton|Hp]%elem_of_union; auto.
  - intros p [Hp|Hp]%elem_of_app; [apply Hs; set_solver|].
    by eapply reachable_dependency.
  - intros p Hp. destruct (Hseeds p Hp) as [|Hq]; [left; set_solver|].
    apply elem_of_app in Hq as [| ->%list_elem_of_singleton];
      [right; set_solver|left; set_solver].
  - intros d [->%elem_of_singleton|Hd]%elem_of_union.
    + exists found, l. split; [done|]. intros p Hp. right. set_solver.
    + destruct (Hclosed d Hd) as (found' & l' & Hdeps' & Hfound).
      exists found', l'. split; [done|]. intros p Hp.
      destruct (Hfound p Hp) as [|Hq]; [left; set_solver|].
      apply elem_of_app in Hq as [| ->%list_elem_of_singleton];
        [right; set_solver|left; set_solver].
Qed.

Lemma search_invariant_final seeds visited :
  search_invariant w seeds visited [] →
  (∀ p, p ∈ visited ↔ reachable w seeds p) ∧
  (∀ dir, dir ∈ visited → ∃ found l, manifest_dependencies w dir = (Ok found, l)).
Proof.
  intros (Hv & _ & Hseeds & Hclosed). split.
  - intros p. split; [apply Hv|].
    induction 1 as [p Hp|dir p found l _ IH Hdeps Hp].
    + destruct (Hseeds p Hp) as [|Hq]; [done|]. by apply elem_of_nil in Hq.
    + destruct (Hclosed dir IH) as (found' & l' & Hdeps' & Hfound).
      rewrite Hdeps in Hdeps'. injection Hdeps' as <- <-.
      destruct (Hfound p Hp) as [|Hq]; [done|]. by apply elem_of_nil in Hq.
  - intros dir Hd. destruct (Hclosed dir Hd) as (found & l & Hdeps & _). eauto.
Qed.

Lemma search_sound seeds fuel logged visited to_search result l :
  search_invariant w seeds visited to_search →
  search w fuel logged visited to_search = Some (Ok result, l) →
  search_invariant w seeds result [].
Proof.
  revert logged visited to_search.
  induction fuel as [|fuel IH]; intros logged visited to_search Hinv; [done|].
  rewrite search_unfold.
  destruct (list_pop to_search) as [[to_search' dir]|] eqn:Hpop.
  - apply list_pop_Some in Hpop as ->.
    destruct (decide (dir ∈ visited)) as [Hin|Hout].
    + apply IH. by eapply search_invariant_skip.
    + destruct (manifest_dependencies w dir) as [[found|e] l'] eqn:Hdeps; [|done].
      apply IH. by eapply search_invariant_visit.
  - apply list_pop_None in Hpop as ->. by intros [= <- <-].
Qed.

Lemma search_raise seeds fuel logged visited to_search e l :
  (∀ p, p ∈ to_search → reachable w seeds p) →
  search w fuel logged visited to_search = Some (Raise e, l) →
  ∃ dir, reachable w seeds dir ∧ fst (manifest_dependencies w dir) = Raise e.
Proof.
  revert logged visited to_search.
  induction fuel as [|fuel IH]; intros logged visited to_search Hs; [done|].
  rewrite search_unfold.
  destruct (list_pop to_search) as [[to_search' dir]|] eqn:Hpop; [|done].
  apply list_pop_Some in Hpop as ->.
  assert (reachable w seeds dir) as Hdir by (apply Hs; set_solver).
  destruct (decide (dir ∈ visited)) as [Hin|Hout].
  - apply IH. intros p Hp. apply Hs. set_solver.
  - destruct (manifest_dependencies w dir) as [[found|e'] l'] eqn:Hdeps.
    + apply IH. intros p [Hp|Hp]%elem_of_app; [apply Hs; set_solver|].
      by eapply reachable_dependency.
    + intros [= -> <-]. exists dir. by rewrite Hdeps.
Qed.

Lemma reachable_same_seeds seeds seeds' p :
  (∀ q, q ∈ seeds ↔ q ∈ seeds') → reachable w seeds p → reachable w seeds' p.
Proof.
  intros Hsame. induction 1 as [p Hp|dir p found l _ IH Hdeps Hp].
  - apply reachable_seed. by apply Hsame.
  - by eapply reachable_dependency.
Qed.

End Closure.

(** The loop ends within the bound [_find_all_path_dependencies] gives it. *)
Lemma find_all_path_dependencies_terminates w seeds :
  is_Some (_find_all_path_dependencies w seeds).
Proof.
  unfold _find_all_path_dependencies. destruct seeds as [|seed seeds]; [by eauto|].
  destruct (search_terminates w (search_bound w (seed :: seeds)) [] ∅ (seed :: seeds)
              (nodes w)) as [[[visited|e] l] ->]; [done|unfold search_bound; lia|..];
    by eauto.
Qed.

(** A result is the sorted enumeration of the set of reachable directories. *)
Lemma find_all_path_dependencies_ok w seeds result l :
  _find_all_path_dependencies w seeds = Some (Ok result, l) →
  ∃ visited : gset Path,
    result = sorted_paths (elements visited) ∧
    (∀ p, p ∈ visited ↔ reachable w seeds p) ∧
    (∀ dir, dir ∈ visited → ∃ found l', manifest_dependencies w dir = (Ok found, l')).
Proof.
  unfold _find_all_path_dependencies. destruct seeds as [|seed seeds].
  - intros [= <- <-]. exists ∅. split; [by rewrite elements_empty|].
    split; [|set_solver]. intros p. split; [set_solver|].
    induction 1 as [p Hp|]; [by apply elem_of_nil in Hp|done].
  - destruct (search w _ _ _ _) as [[[visited|e] l']|] eqn:Hsearch; try done.
    intros [= <- <-]. exists visited. split; [done|].
    apply search_invariant_final. eapply search_sound; [|done].
    apply search_invariant_init.
Qed.

Lemma find_all_path_dependencies_raise w seeds e l :
  _find_all_path_dependencies w seeds = Some (Raise e, l) →
  ∃ dir, reachable w seeds dir ∧ fst (manifest_dependencies w dir) = Raise e.
Proof.
  unfold _find_all_path_dependencies. destruct seeds as [|seed seeds]; [done|].
  destruct (search w _ _ _ _) as [[[visited|e'] l']|] eqn:Hsearch; try done.
  intros [= -> <-]. eapply search_raise; [|done]. intros p Hp. by apply reachable_seed.
Qed.

Lemma sorted_paths_elements (visited : gset Path) :
  (∀ p, p ∈ sorted_paths (elements visited) ↔ p ∈ visited) ∧
  NoDup (sorted_paths (elements visited)) ∧
  StronglySorted PurePath.le (sorted_paths (elements visited)).
Proof.
  unfold sorted_paths. split; [|split].
  - intros p. by rewrite merge_sort_Permutation, elem_of_elements.
  - rewrite merge_sort_Permutation. apply NoDup_elements.
  - apply StronglySorted_merge_sort; apply _.
Qed.

(** C4.  The walk ends, with a result or with the exception that the visit
    of a directory raised.  A result holds exactly the directories reachable
    from the seeds, each once, among them every seed, in increasing order;
    it is the only increasing arrangement of them, and the same for any list
    of seeds with the same elements.  An exception comes from the visit of a
    reachable directory (the check for its manifest, the load, or one of the
    paths the manifest declares), so the walk returns a result whenever the
    visits of the reachable directories all return. *)
Theorem find_all_path_dependencies_closure (w : World) (seeds : list Path) :
  ∃ r, _find_all_path_dependencies w seeds = Some r ∧
    (∀ result l, r = (Ok result, l) →
       (∀ p, p ∈ result ↔ reachable w seeds p) ∧
       NoDup result ∧
       (∀ p, p ∈ seeds → p ∈ result) ∧
       StronglySorted PurePath.le result ∧
       (∀ other, Forall well_formed result → other ≡ₚ result →
                 StronglySorted PurePath.le other → other = result) ∧
       (∀ seeds' result' l',
          (∀ p, p ∈ seeds ↔ p ∈ seeds') →
          _find_all_path_dependencies w seeds' = Some (Ok result', l') →
          result' = result)) ∧
    (∀ e l, r = (Raise e, l) →
       ∃ dir, reachable w seeds dir ∧ fst (manifest_dependencies w dir) = Raise e) ∧
    ((∀ dir, reachable w seeds dir →
        ∃ found l, manifest_dependencies w dir = (Ok found, l)) →
     ∃ result l, r = (Ok result, l)).
Proof.
  destruct (find_all_path_dependencies_terminates w seeds) as [r Hr].
  exists r. split; [done|]. split; [|split].
  - intros result l ->.
    destruct (find_all_path_dependencies_ok _ _ _ _ Hr) as (visited & -> & Hreach & _).
    destruct (sorted_paths_elements visited) as (Hmem & Hnodup & Hsorted).
    split; [intros p; by rewrite Hmem|]. split; [done|].
    split; [intros p Hp; by apply Hmem, Hreach, reachable_seed|]. split; [done|].
    split.
    + intros other Hwf Hperm Hother.
      apply (StronglySorted_unique_strong PurePath.le); [|done..].
      intros p q Hp Hq. rewrite Hperm in Hp.
      rewrite Forall_forall in Hwf. by apply path_le_antisym; apply Hwf.
    + intros seeds' result' l' Hsame Hr'.
      destruct (find_all_path_dependencies_ok _ _ _ _ Hr') as (visited' & -> & Hreach' & _).
      assert (visited' = visited) as ->; [|done].
      apply set_eq. intros p. rewrite Hreach, Hreach'.
      split; apply reachable_same_seeds; intros q; by rewrite Hsame.
  - intros e l ->. by eapply find_all_path_dependencies_raise.
  - intros Hall. destruct r as [[result|e] l]; [by eauto|].
    destruct (find_all_path_dependencies_raise _ _ _ _ Hr) as (dir & Hdir & Hraise).
    destruct (Hall dir Hdir) as (found & l' & Hdeps). by rewrite Hdeps in Hraise.
Qed.

(** The cycle of the spec: a depends on b, b depends on a. *)
Example cycle_closure :
  manifest_dependencies Sample.cycle Sample.crate_a = (Ok [Sample.crate_b], []) ∧
  manifest_dependencies Sample.cycle Sample.crate_b = (Ok [Sample.crate_a], []) ∧
  _find_all_path_dependencies Sample.cycle [Sample.crate_a]
  = Some (Ok [Sample.crate_a; Sample.crate_b], []) ∧
  _find_all_path_dependencies Sample.cycle [Sample.crate_b]
  = Some (Ok [Sample.crate_a; Sample.crate_b], []).
Proof. repeat split; vm_compute; reflexivity. Qed.

Lemma find_all_path_dependencies_closure_witness :
  _find_all_path_dependencies Sample.cycle [Sample.crate_a]
  = Some (Ok [Sample.crate_a; Sample.crate_b], []) ∧
  NoDup [Sample.crate_a; Sample.crate_b] ∧
  (∀ p, p ∈ [Sample.crate_a; Sample.crate_b] ↔ reachable Sample.cycle [Sample.crate_a] p).
Proof.
  destruct (find_all_path_dependencies_closure Sample.cycle [Sample.crate_a])
    as (r & Hr & Hok & _).
  assert (r = (Ok [Sample.crate_a; Sample.crate_b], [])) as ->.
  { assert (Some r = Some (Ok [Sample.crate_a; Sample.crate_b], [])) as H
      by (rewrite <- Hr; vm_compute; reflexivity).
    by injection H. }
  destruct (Hok _ _ eq_refl) as (Hmem & Hnodup & _).
  split; [exact Hr|]. split; [exact Hnodup|exact Hmem].
Defined.

(** * Further properties of the module *)

(** ** get_value_or_default *)

Lemma get_value_or_default_split self keys T default :
  TomlFile.get_value_or_default self keys T default
  = (match fst (TomlFile.get_value self keys T) with
     | Ok value => Ok (match value with Some v => v | None => default end)
     | Raise e => Raise e
     end,
     snd (TomlFile.get_value self keys T)).
Proof.
  unfold TomlFile.get_value_or_default, bind.
  destruct (TomlFile.get_value self keys T) as [[value|e] l]; simpl; [|done].
  by rewrite app_nil_r.
Qed.

(** X1.  With a non-empty key list, [get_value_or_default] never raises and
    logs exactly what [get_value] logs.  It returns the configured value when
    the keys lead to a value of the expected class and the default otherwise:
    silently when a key is missing, after one error record when the shape or
    the class is wrong. *)
Theorem get_value_or_default_falls_back
    (self : _TomlFile) (keys : list string) (T : pytype) (default : instance T) :
  keys ≠ [] →
  TomlFile.get_value_or_default self keys T default
  = (Ok (match config_value self keys T with Some v => v | None => default end),
     snd (TomlFile.get_value self keys T)) ∧
  (key_missing (toml_data self) keys →
     TomlFile.get_value_or_default self keys T default = (Ok default, [])) ∧
  (parent_not_table (toml_data self) keys ∨ terminal_mismatch (toml_data self) keys T →
     TomlFile.get_value_or_default self keys T default
     = (Ok default, [TomlFile.get_value_error self keys T])).
Proof.
  intros Hne. rewrite get_value_or_default_split.
  split; [by rewrite get_value_config|]. split.
  - intros Hmiss. unfold TomlFile.get_value. destruct keys as [|k keys]; [done|].
    by rewrite (descend_missing _ _ Hmiss).
  - intros [Hpar|(v & Hlook & Hty)]; unfold TomlFile.get_value;
      destruct keys as [|k keys]; try done.
    + by rewrite (descend_parent _ _ Hpar).
    + rewrite (descend_finished _ _ v) by done.
      unfold isinstance in Hty. by destruct (as_instance T v).
Qed.

Lemma get_value_or_default_falls_back_witness :
  TomlFile.get_value_or_default malformed_file ["project"; "version"] py_str "0.1.0"
  = (Ok "0.1.0", []) ∧
  TomlFile.get_value_or_default malformed_file ["project"; "name"] py_str "fallback"
  = (Ok "fallback", [TomlFile.get_value_error malformed_file ["project"; "name"] py_str]).
Proof.
  split.
  - apply (get_value_or_default_falls_back malformed_file ["project"; "version"] py_str);
      [done|].
    by exists ["project"], "version", [], [("name", TArray [TString "my-pkg"])].
  - apply (get_value_or_default_falls_back malformed_file ["project"; "name"] py_str);
      [done|].
    right. by exists (TArray [TString "my-pkg"]).
Defined.

(** ** find_cargo_manifest, is_maybe_maturin_project *)

Lemma path_exists_not_found w p : path_exists w p = ret false → nodes w !! p = None.
Proof. unfold path_exists. by destruct (nodes w !! p) as [[]|]. Qed.

Lemma path_exists_found w p :
  path_exists w p = ret true → ∃ n, nodes w !! p = Some n ∧ n ≠ NoAccess.
Proof. unfold path_exists. destruct (nodes w !! p) as [[]|]; intros; by eauto. Qed.

(** What the two default places give. *)
Lemma default_manifest_cases w project_dir :
  let cargo := project_dir </> "Cargo.toml" in
  let nested := project_dir </> "rust/Cargo.toml" in
  match fst (default_manifest w project_dir) with
  | Ok (Some manifest_path) =>
      (manifest_path = cargo ∧ path_exists w cargo = ret true) ∨
      (manifest_path = nested ∧ path_exists w cargo = ret false ∧
       path_exists w nested = ret true)
  | Ok None => path_exists w cargo = ret false ∧ path_exists w nested = ret false
  | Raise e =>
      (e = OSError cargo ∧ path_exists w cargo = raise (OSError cargo)) ∨
      (e = OSError nested ∧ path_exists w cargo = ret false ∧
       path_exists w nested = raise (OSError nested))
  end.
Proof.
  intros cargo nested. unfold default_manifest. fold cargo nested.
  destruct (path_exists_cases w cargo) as [H|[H|H]]; rewrite H.
  - rewrite bind_ret. simpl. by left.
  - rewrite bind_ret.
    destruct (path_exists_cases w nested) as [H'|[H'|H']]; rewrite H'.
    + rewrite bind_ret. simpl. by right.
    + rewrite bind_ret. by simpl.
    + rewrite bind_raise. simpl. by right.
  - rewrite bind_raise. simpl. by left.
Qed.

(** [find_cargo_manifest] by what pyproject.toml is on disk. *)
Lemma find_cargo_manifest_fst w project_dir :
  fst (find_cargo_manifest w project_dir)
  = match nodes w !! (project_dir </> "pyproject.toml") with
    | None => fst (default_manifest w project_dir)
    | Some (File pydata) =>
        match config_value (mk_TomlFile (project_dir </> "pyproject.toml") pydata)
                ["tool"; "maturin"; "manifest-path"] py_str with
        | Some relative => Ok (Some (project_dir </> relative))
        | None => fst (default_manifest w project_dir)
        end
    | Some Garbage => Raise (TOMLDecodeError (project_dir </> "pyproject.toml"))
    | Some NotText => Raise (UnicodeDecodeError (project_dir </> "pyproject.toml"))
    | Some _ => Raise (OSError (project_dir </> "pyproject.toml"))
    end.
Proof.
  unfold find_cargo_manifest.
  assert (path_exists w (project_dir </> "pyproject.toml")
          = match nodes w !! (project_dir </> "pyproject.toml") with
            | Some NoAccess => raise (OSError (project_dir </> "pyproject.toml"))
            | Some _ => ret true
            | None => ret false
            end) as -> by done.
  unfold TomlFile.load.
  destruct (nodes w !! (project_dir </> "pyproject.toml")) as [[]|] eqn:Hpy;
    rewrite ?bind_ret, ?bind_raise; try done.
  erewrite bind_fst_ok by by apply (get_value_config _ _ py_str).
  by destruct (config_value _ _ py_str).
Qed.

(** X2.  [find_cargo_manifest] tries, in this order: the [manifest-path] of
    a pyproject.toml that loads, joined to the project directory and returned
    without looking at the disk; Cargo.toml of the project if it exists;
    rust/Cargo.toml if it exists.  A pyproject.toml that is missing, or holds
    no string there, leaves the two default places, and the function then
    raises only where one of the two checks raises.  A pyproject.toml that
    exists and does not load makes the function raise the load error. *)
Theorem find_cargo_manifest_precedence (w : World) (project_dir : Path) :
  let pyproject_path := project_dir </> "pyproject.toml" in
  let cargo := project_dir </> "Cargo.toml" in
  let nested := project_dir </> "rust/Cargo.toml" in
  (∀ pydata relative,
     nodes w !! pyproject_path = Some (File pydata) →
     config_value (mk_TomlFile pyproject_path pydata)
       ["tool"; "maturin"; "manifest-path"] py_str = Some relative →
     fst (find_cargo_manifest w project_dir) = Ok (Some (project_dir </> relative))) ∧
  (path_exists w pyproject_path = ret false ∨
   (∃ pydata, nodes w !! pyproject_path = Some (File pydata) ∧
              config_value (mk_TomlFile pyproject_path pydata)
                ["tool"; "maturin"; "manifest-path"] py_str = None) →
   (path_exists w cargo = ret true →
      fst (find_cargo_manifest w project_dir) = Ok (Some cargo)) ∧
   (path_exists w cargo = ret false → path_exists w nested = ret true →
      fst (find_cargo_manifest w project_dir) = Ok (Some nested)) ∧
   (path_exists w cargo = ret false → path_exists w nested = ret false →
      fst (find_cargo_manifest w project_dir) = Ok None) ∧
   (∀ e, fst (find_cargo_manifest w project_dir) = Raise e →
      (e = OSError cargo ∧ path_exists w cargo = raise (OSError cargo)) ∨
      (e = OSError nested ∧ path_exists w nested = raise (OSError nested)))) ∧
  (∀ e, path_exists w pyproject_path = ret true →
        fst (TomlFile.load w pyproject_path) = Raise e →
        find_cargo_manifest w project_dir = (Raise e, [])).
Proof.
  intros pyproject_path cargo nested. split; [|split].
  - intros pydata relative Hpy Hcfg. rewrite find_cargo_manifest_fst.
    fold pyproject_path. by rewrite Hpy, Hcfg.
  - intros Hnone.
    assert (fst (find_cargo_manifest w project_dir) = fst (default_manifest w project_dir))
      as ->.
    { rewrite find_cargo_manifest_fst. fold pyproject_path.
      destruct Hnone as [Hpy%path_exists_not_found|(pydata & Hpy & Hcfg)]; rewrite Hpy;
        [done|]. by rewrite Hcfg. }
    pose proof (default_manifest_cases w project_dir) as Hcases. cbv zeta in Hcases.
    fold cargo nested in Hcases.
    destruct (fst (default_manifest w project_dir)) as [[m|]|e'].
    + destruct Hcases as [[-> Hc]|(-> & Hc & Hn)]; rewrite Hc, ?Hn;
        unfold ret; repeat split; intros; congruence.
    + destruct Hcases as [Hc Hn]. rewrite Hc, Hn.
      unfold ret; repeat split; intros; congruence.
    + destruct Hcases as [[-> Hc]|(-> & Hc & Hn)]; rewrite Hc, ?Hn;
        unfold ret, raise; (repeat split; try congruence); intros e [= <-]; auto.
  - intros e Hexists Hload. unfold find_cargo_manifest. fold pyproject_path.
    rewrite Hexists, bind_ret. unfold TomlFile.load in *.
    destruct (nodes w !! pyproject_path) as [[]|]; simpl in *; try done;
      by injection Hload as <-.
Qed.

Lemma find_cargo_manifest_precedence_witness :
  fst (find_cargo_manifest override_manifest Sample.proj)
  = Ok (Some (Sample.at_root ["proj"; "native"; "Cargo.toml"])) ∧
  fst (find_cargo_manifest Sample.mixed Sample.proj)
  = Ok (Some (Sample.at_root ["proj"; "rust"; "Cargo.toml"])) ∧
  find_cargo_manifest unparsable_pyproject Sample.proj
  = (Raise (TOMLDecodeError (Sample.at_root ["proj"; "pyproject.toml"])), []).
Proof.
  split; [|split].
  - pose proof (find_cargo_manifest_precedence override_manifest Sample.proj) as H.
    cbv zeta in H. destruct H as (H & _ & _).
    apply (H override_pyproject "native/Cargo.toml"); vm_compute; reflexivity.
  - pose proof (find_cargo_manifest_precedence Sample.mixed Sample.proj) as H.
    cbv zeta in H. destruct H as (_ & H & _).
    destruct H as (_ & H & _).
    { right. exists Sample.mixed_pyproject. split; vm_compute; reflexivity. }
    apply H; vm_compute; reflexivity.
  - pose proof (find_cargo_manifest_precedence unparsable_pyproject Sample.proj) as H.
    cbv zeta in H. destruct H as (_ & _ & H).
    apply H; vm_compute; reflexivity.
Defined.

Lemma is_maybe_maturin_project_fst w project_dir :
  fst (is_maybe_maturin_project w project_dir)
  = match nodes w !! (project_dir </> "pyproject.toml") with
    | None => Ok false
    | Some NoAccess => Raise (OSError (project_dir </> "pyproject.toml"))
    | Some _ =>
        match fst (find_cargo_manifest w project_dir) with
        | Ok (Some _) => Ok true
        | Ok None => Ok false
        | Raise e => Raise e
        end
    end.
Proof.
  unfold is_maybe_maturin_project, path_exists.
  destruct (nodes w !! (project_dir </> "pyproject.toml")) as [[]|];
    rewrite ?bind_ret, ?bind_raise; try done;
    (destruct (fst (find_cargo_manifest w project_dir)) as [[m|]|e] eqn:Hfind;
     [by erewrite bind_fst_ok by done|by erewrite bind_fst_ok by done
     |by erewrite bind_fst_raise by done]).
Qed.

(** [_resolve_project] up to the point where both files are loaded. *)
Lemma resolve_project_fst w project_dir :
  fst (_resolve_project w project_dir)
  = match nodes w !! (project_dir </> "pyproject.toml") with
    | None => Raise (ProjectResolveError "no pyproject.toml found")
    | Some (File pydata) =>
        match fst (find_cargo_manifest w project_dir) with
        | Raise e => Raise e
        | Ok None => Raise (ProjectResolveError "no Cargo.toml found")
        | Ok (Some manifest_path) =>
            match nodes w !! manifest_path with
            | Some (File cdata) => fst (_resolve_project w project_dir)
            | Some Garbage => Raise (TOMLDecodeError manifest_path)
            | Some NotText => Raise (UnicodeDecodeError manifest_path)
            | _ => Raise (OSError manifest_path)
            end
        end
    | Some Garbage => Raise (TOMLDecodeError (project_dir </> "pyproject.toml"))
    | Some NotText => Raise (UnicodeDecodeError (project_dir </> "pyproject.toml"))
    | Some _ => Raise (OSError (project_dir </> "pyproject.toml"))
    end.
Proof.
  destruct (nodes w !! (project_dir </> "pyproject.toml")) as [n|] eqn:Hpy.
  2:{ unfold _resolve_project. by rewrite (path_exists_missing _ _ Hpy), bind_ret. }
  destruct n;
    try (unfold _resolve_project, path_exists, TomlFile.load; rewrite !Hpy;
         by rewrite ?bind_ret, ?bind_raise).
  destruct (fst (find_cargo_manifest w project_dir)) as [[m|]|e] eqn:Hfind.
  - destruct (nodes w !! m) as [[]|] eqn:Hm; try done;
      unfold _resolve_project; rewrite (path_exists_file _ _ _ Hpy), bind_ret; cbn [negb];
      rewrite (load_file _ _ _ Hpy);
      erewrite bind_fst_ok by done; erewrite bind_fst_ok by done; cbv beta iota;
      erewrite bind_fst_raise; try done; unfold TomlFile.load; by rewrite Hm.
  - unfold _resolve_project. rewrite (path_exists_file _ _ _ Hpy), bind_ret. cbn [negb].
    rewrite (load_file _ _ _ Hpy).
    erewrite bind_fst_ok by done. by erewrite bind_fst_ok by done.
  - unfold _resolve_project. rewrite (path_exists_file _ _ _ Hpy), bind_ret. cbn [negb].
    rewrite (load_file _ _ _ Hpy).
    erewrite bind_fst_ok by done. by erewrite bind_fst_raise.
Qed.

Lemma resolve_miss_none w self project_dir msg :
  _resolved_project_cache self !! project_dir = None →
  fst (_resolve_project w project_dir) = Raise (ProjectResolveError msg) →
  fst (fst (Resolver.resolve w self project_dir)) = Ok None ∧
  _resolved_project_cache (snd (Resolver.resolve w self project_dir)) !! project_dir
  = Some None.
Proof.
  intros Hmiss Hres. unfold Resolver.resolve. rewrite Hmiss.
  destruct (_resolve_project w project_dir) as [[project|e] l]; simpl in *; [done|].
  injection Hres as ->. simpl. by rewrite lookup_insert_eq.
Qed.

(** X3.  [is_maybe_maturin_project] is a sound negative filter for
    [resolve]: where it answers [False], a resolver that has not seen the
    directory returns [None] and caches it; and wherever [_resolve_project]
    returns a record, it answers [True]. *)
Theorem is_maybe_maturin_project_filters
    (w : World) (self : ProjectResolver) (project_dir : Path) :
  (fst (is_maybe_maturin_project w project_dir) = Ok false →
   _resolved_project_cache self !! project_dir = None →
   fst (fst (Resolver.resolve w self project_dir)) = Ok None ∧
   _resolved_project_cache (snd (Resolver.resolve w self project_dir)) !! project_dir
   = Some None) ∧
  (∀ project l,
     _resolve_project w project_dir = (Ok project, l) →
     fst (is_maybe_maturin_project w project_dir) = Ok true).
Proof.
  split.
  - rewrite is_maybe_maturin_project_fst. intros Hmaybe Hmiss.
    pose proof (resolve_project_fst w project_dir) as Hres.
    destruct (nodes w !! (project_dir </> "pyproject.toml")) as [n|] eqn:Hpy;
      [|by eapply resolve_miss_none].
    pose proof (find_cargo_manifest_fst w project_dir) as Hf. rewrite Hpy in Hf.
    destruct n; try done; try (by rewrite Hf in Hmaybe).
    destruct (fst (find_cargo_manifest w project_dir)) as [[m|]|e] eqn:Hfind; try done.
    by eapply resolve_miss_none.
  - intros project l [pydata cdata Hpy Hfind _ _ _ _ _ _]%resolve_project_ok.
    rewrite is_maybe_maturin_project_fst, Hpy. by rewrite Hfind.
Qed.

Lemma is_maybe_maturin_project_filters_witness :
  fst (fst (Resolver.resolve no_manifest Resolver.init Sample.proj)) = Ok None ∧
  fst (is_maybe_maturin_project Sample.mixed Sample.proj) = Ok true.
Proof.
  split.
  - apply (is_maybe_maturin_project_filters no_manifest Resolver.init Sample.proj);
      vm_compute; reflexivity.
  - apply (proj2 (is_maybe_maturin_project_filters Sample.mixed Resolver.init Sample.proj)
             mixed_project []).
    vm_compute. reflexivity.
Defined.

(** ** What makes a directory unresolvable *)

Lemma resolve_py_root_raises w project_dir pyproject e :
  fst (_resolve_py_root w project_dir pyproject) = Raise e →
  e = TypeError ∨ ∃ p, e = OSError p.
Proof.
  destruct (config_value pyproject ["tool"; "maturin"; "python-source"] py_str)
    as [override|] eqn:Hsrc.
  { unfold _resolve_py_root.
    erewrite bind_fst_ok by by apply get_value_config. by rewrite Hsrc. }
  destruct (config_value pyproject ["project"; "name"] py_str) as [name|] eqn:Hname.
  - rewrite (resolve_py_root_scan _ _ _ name) by done.
    destruct (fst (path_exists w _)) as [rust_found|e'] eqn:Hrust.
    + destruct (fst (any_init_py _ _ _)) as [found|e'] eqn:Hscan; [done|].
      intros [= <-]. by eapply any_init_py_raises.
    + intros [= <-]. apply path_exists_raises in Hrust as [_ ->]. right. by eexists.
  - unfold _resolve_py_root.
    erewrite bind_fst_ok by by apply get_value_config. rewrite Hsrc.
    erewrite bind_fst_ok by by apply get_value_config. by rewrite Hname.
Qed.

(** [scan_dependencies] through the [path] values it meets. *)
Lemma scan_dependencies_declared w dir values acc :
  fst (scan_dependencies w dir values acc)
  = match resolve_declared w dir (omap path_of_dependency values) with
    | Ok paths => Ok (acc ++ paths)
    | Raise e => Raise e
    end.
Proof.
  revert acc. induction values as [|v values IH]; intros acc.
  - simpl. by rewrite app_nil_r.
  - cbn [scan_dependencies omap list_omap]. unfold path_of_dependency at 1.
    destruct v as [| | | | | |entry]; cbn [as_instance]; try apply IH.
    destruct (dict_get "path" entry) as [relative|]; [|apply IH].
    destruct relative as [s| | | | | |]; try done.
    cbn [path_div resolve_declared]. rewrite bind_ret. unfold path_resolve.
    destruct (realpath w (dir </> s)) as [p|[]]; try done.
    rewrite bind_ret, IH.
    destruct (resolve_declared w dir (omap path_of_dependency values)); [|done].
    by rewrite <- app_assoc.
Qed.

Lemma resolve_declared_ok w dir declared paths :
  resolve_declared w dir declared = Ok paths ↔
  ∃ relatives, declared = map TString relatives ∧
               Forall2 (resolves_to w dir) relatives paths.
Proof.
  revert paths. induction declared as [|v declared IH]; intros paths; simpl.
  - split.
    + intros [= <-]. exists []. split; [done|constructor].
    + intros ([|r rs] & Hmap & Hall); [|done]. by inversion Hall.
  - destruct v as [s| | | | | |];
      try (split; [done|]; intros ([|r rs] & Hmap & _); done).
    split.
    + destruct (realpath w (dir </> s)) as [p|why] eqn:Hp; [|done].
      destruct (resolve_declared w dir declared) as [ps|e] eqn:Hrest; [|done].
      intros [= <-]. destruct (proj1 (IH ps) eq_refl) as (rs & -> & Hall).
      exists (s :: rs). split; [done|]. by constructor.
    + intros ([|r rs] & Hmap & Hall); [done|]. simpl in Hmap. injection Hmap as -> ->.
      inversion Hall as [|? p ? ps Hp Hrest]; subst. unfold resolves_to in Hp. rewrite Hp.
      by rewrite (proj2 (IH ps) (ex_intro _ rs (conj eq_refl Hrest))).
Qed.


Lemma resolve_declared_raises w dir declared e :
  resolve_declared w dir declared = Raise e →
  e = TypeError ∨ e = ValueError ∨ e = RuntimeError.
Proof.
  induction declared as [|v declared IH]; simpl; [done|].
  destruct v; try (intros [= <-]; by left).
  destruct (realpath w (dir </> s)) as [p|[]]; [|intros [= <-]; auto..].
  destruct (resolve_declared w dir declared); [done|]. intros [= <-]. by apply IH.
Qed.

Lemma get_immediate_path_dependencies_fst w dir cargo :
  fst (_get_immediate_path_dependencies w dir cargo)
  = resolve_declared w dir (declared_paths (dependencies_table cargo)).
Proof.
  unfold _get_immediate_path_dependencies.
  erewrite bind_fst_ok by by apply get_value_or_default_config.
  rewrite scan_dependencies_declared. unfold declared_paths, dependencies_table.
  by destruct (resolve_declared _ _ _).
Qed.

Lemma get_immediate_path_dependencies_raises w dir cargo e :
  fst (_get_immediate_path_dependencies w dir cargo) = Raise e →
  e = TypeError ∨ e = ValueError ∨ e = RuntimeError.
Proof. rewrite get_immediate_path_dependencies_fst. apply resolve_declared_raises. Qed.

(** X4.  A resolver that has not seen a directory returns [None] for it in
    exactly three cases: the check for pyproject.toml answers that there is
    none; pyproject.toml loads and the search for a manifest returns [None];
    both files load and none of the four tiers names the module.  Every
    other failure, a check that raises among them, is an exception of another
    class, which [resolve] lets through. *)
Theorem resolve_none_iff_not_resolvable
    (w : World) (self : ProjectResolver) (project_dir : Path) :
  _resolved_project_cache self !! project_dir = None →
  (fst (fst (Resolver.resolve w self project_dir)) = Ok None ↔
   not_resolvable w project_dir).
Proof.
  intros Hmiss. split.
  - intros (msg & Hres)%(resolve_miss_ok _ _ _ _ Hmiss).
    rewrite resolve_project_fst in Hres. unfold not_resolvable.
    destruct (nodes w !! (project_dir </> "pyproject.toml")) as [[]|] eqn:Hpy;
      try done; [|left; by apply path_exists_missing].
    right. destruct (fst (find_cargo_manifest w project_dir)) as [[m|]|e] eqn:Hfind.
    + right. destruct (nodes w !! m) as [[]|] eqn:Hm; try done.
      exists data, m, data0. repeat split; try done.
      rewrite (resolve_project_steps _ _ data m data0) in Hres by done.
      destruct (first_tier _ _) as [name|]; [|done]. exfalso.
      destruct (fst (_resolve_py_root _ _ _)) as [root|e] eqn:Hroot.
      * destruct (fst (_get_immediate_path_dependencies _ _ _)) as [deps|e] eqn:Hdeps.
        -- cbv zeta in Hres.
           destruct (fst (path_exists w _)) as [found|e] eqn:Hfound; [done|].
           by apply path_exists_raises in Hfound as [_ ->].
        -- by apply get_immediate_path_dependencies_raises in Hdeps as [->|[->| ->]].
      * by apply resolve_py_root_raises in Hroot as [->|[p ->]].
    + left. by exists data.
    + pose proof (find_cargo_manifest_fst w project_dir) as Hf.
      rewrite Hpy, Hfind in Hf.
      destruct (config_value _ _ py_str) as [relative|]; [done|].
      pose proof (default_manifest_cases w project_dir) as Hcases. cbv zeta in Hcases.
      rewrite <- Hf in Hcases. injection Hres as ->.
      by destruct Hcases as [[? _]|[? _]].
  - intros [Hpy%path_exists_not_found
           |[(pydata & Hpy & Hfind)|(pydata & m & cdata & Hpy & Hfind & Hm & Htier)]].
    + eapply resolve_miss_none; [done|]. by rewrite resolve_project_fst, Hpy.
    + eapply resolve_miss_none; [done|]. by rewrite resolve_project_fst, Hpy, Hfind.
    + eapply resolve_miss_none; [done|].
      rewrite (resolve_project_steps _ _ pydata m cdata) by done. by rewrite Htier.
Qed.

Lemma resolve_none_iff_not_resolvable_witness :
  fst (fst (Resolver.resolve no_manifest Resolver.init Sample.proj)) = Ok None ∧
  ¬ not_resolvable Sample.mixed Sample.proj ∧
  ¬ not_resolvable no_access_pyproject Sample.proj.
Proof.
  split; [|split].
  - apply (resolve_none_iff_not_resolvable no_manifest Resolver.init Sample.proj);
      [vm_compute; reflexivity|].
    right. left. exists Sample.mixed_pyproject. split; vm_compute; reflexivity.
  - intros H.
    apply (resolve_none_iff_not_resolvable Sample.mixed Resolver.init Sample.proj) in H;
      [|vm_compute; reflexivity].
    vm_compute in H. discriminate H.
  - intros H.
    apply (resolve_none_iff_not_resolvable no_access_pyproject Resolver.init Sample.proj)
      in H; [|vm_compute; reflexivity].
    vm_compute in H. discriminate H.
Defined.

(** ** _get_immediate_path_dependencies *)

(** X5.  Where every [path] of a table-valued dependency is a string that
    [resolve] accepts once joined to the manifest directory,
    [_get_immediate_path_dependencies] returns one resolved path per such
    entry, in the order the manifest declares them; dependencies given as
    plain version strings and tables without a [path] are skipped.  A
    manifest without a [dependencies] table gives the empty list, silently
    when the key is missing and after one error record when it holds
    something else. *)
Theorem immediate_path_dependencies_in_order
    (w : World) (manifest_dir_path : Path) (cargo : _TomlFile) :
  (∀ relatives paths,
     declared_paths (dependencies_table cargo) = map TString relatives →
     Forall2 (λ relative p, realpath w (manifest_dir_path </> relative) = ResolvesTo p)
       relatives paths →
     fst (_get_immediate_path_dependencies w manifest_dir_path cargo) = Ok paths) ∧
  (dict_get "dependencies" (toml_data cargo) = None →
     _get_immediate_path_dependencies w manifest_dir_path cargo = (Ok [], [])) ∧
  (∀ v, dict_get "dependencies" (toml_data cargo) = Some v → is_table v = false →
     _get_immediate_path_dependencies w manifest_dir_path cargo
     = (Ok [], [TomlFile.get_value_error cargo ["dependencies"] py_dict])).
Proof.
  split; [|split].
  - intros relatives paths Hdecl Hall. rewrite get_immediate_path_dependencies_fst.
    apply resolve_declared_ok. by exists relatives.
  - intros Hget. unfold _get_immediate_path_dependencies.
    rewrite get_value_or_default_split. unfold TomlFile.get_value. simpl.
    by rewrite Hget.
  - intros v Hget Hv. unfold _get_immediate_path_dependencies.
    rewrite get_value_or_default_split. unfold TomlFile.get_value. simpl.
    rewrite Hget. by destruct v.
Qed.

Lemma immediate_path_dependencies_in_order_witness :
  fst (_get_immediate_path_dependencies Sample.cycle (Sample.at_root ["ws"; "app"])
         workspace_cargo)
  = Ok [Sample.at_root ["ws"; "core"]; Sample.at_root ["ws"; "app"; "crates"; "util"]] ∧
  _get_immediate_path_dependencies Sample.cycle (Sample.at_root ["ws"; "app"]) empty_file
  = (Ok [], []).
Proof.
  split.
  - apply (proj1 (immediate_path_dependencies_in_order Sample.cycle
                    (Sample.at_root ["ws"; "app"]) workspace_cargo)
             ["../core"; "crates/util"]).
    + reflexivity.
    + repeat constructor.
  - apply (immediate_path_dependencies_in_order Sample.cycle (Sample.at_root ["ws"; "app"])
             empty_file).
    reflexivity.
Defined.



(** The first entry that fails decides: a number before a string with a
    null character raises [TypeError], the other order [ValueError]. *)
Example first_bad_path_decides :
  fst (_get_immediate_path_dependencies (Sample.disk_refusing_nul [])
         (Sample.at_root ["ws"; "app"]) number_then_nul_cargo)
  = Raise TypeError.
Proof. vm_compute. reflexivity. Qed.

(** ** Records that resolution returns *)

(** X7.  The manifest of a resolved record is a file that parsed, and it is
    the [manifest-path] of pyproject.toml joined to the project directory
    when that is configured, and otherwise Cargo.toml of the project or
    rust/Cargo.toml, the latter only when the former does not exist. *)
Theorem resolved_manifest_loaded
    (w : World) (project_dir : Path) (project : MaturinProject) (l : list log_record) :
  _resolve_project w project_dir = (Ok project, l) →
  (∃ cdata, nodes w !! cargo_manifest_path project = Some (File cdata)) ∧
  ∃ pydata,
    nodes w !! (project_dir </> "pyproject.toml") = Some (File pydata) ∧
    match config_value (mk_TomlFile (project_dir </> "pyproject.toml") pydata)
            ["tool"; "maturin"; "manifest-path"] py_str with
    | Some relative => cargo_manifest_path project = project_dir </> relative
    | None =>
        cargo_manifest_path project = project_dir </> "Cargo.toml" ∨
        (cargo_manifest_path project = project_dir </> "rust/Cargo.toml" ∧
         path_exists w (project_dir </> "Cargo.toml") = ret false)
    end.
Proof.
  intros [pydata cdata Hpy Hfind Hcargo _ _ _ _ _]%resolve_project_ok.
  split; [by exists cdata|]. exists pydata. split; [done|].
  rewrite find_cargo_manifest_fst, Hpy in Hfind.
  destruct (config_value _ _ py_str) as [relative|]; [by injection Hfind|].
  pose proof (default_manifest_cases w project_dir) as Hcases. cbv zeta in Hcases.
  rewrite Hfind in Hcases. destruct Hcases as [[-> _]|(-> & Hc & _)]; [by left|by right].
Qed.

Lemma resolved_manifest_loaded_witness :
  ∃ cdata, nodes Sample.mixed !! cargo_manifest_path mixed_project = Some (File cdata).
Proof.
  apply (resolved_manifest_loaded Sample.mixed Sample.proj mixed_project []).
  vm_compute. reflexivity.
Defined.

(** X8.  Whenever [_resolve_py_root] returns, the source root is the
    configured [python-source] joined to the project directory, or the project
    directory, or its [src] directory; it is [src] only where [python-source]
    is unset, a project name is declared and rust/Cargo.toml exists.  What it
    raises is [TypeError], for a listed package that is not a string, or the
    [OSError] of a check on the disk that fails. *)
Theorem resolve_py_root_range (w : World) (project_dir : Path) (pyproject : _TomlFile) :
  (∀ root, fst (_resolve_py_root w project_dir pyproject) = Ok root →
     match config_value pyproject ["tool"; "maturin"; "python-source"] py_str with
     | Some override => root = project_dir </> override
     | None =>
         root = project_dir ∨
         (root = project_dir </> "src" ∧
          path_exists w (project_dir </> "rust/Cargo.toml") = ret true ∧
          is_Some (config_value pyproject ["project"; "name"] py_str))
     end) ∧
  (∀ e, fst (_resolve_py_root w project_dir pyproject) = Raise e →
        e = TypeError ∨ ∃ p, e = OSError p).
Proof.
  split; [|by apply resolve_py_root_raises].
  intros root.
  destruct (config_value pyproject ["tool"; "maturin"; "python-source"] py_str)
    as [override|] eqn:Hsrc.
  { unfold _resolve_py_root.
    erewrite bind_fst_ok by by apply get_value_config. rewrite Hsrc. by intros [= <-]. }
  destruct (config_value pyproject ["project"; "name"] py_str) as [name|] eqn:Hname.
  - rewrite (resolve_py_root_scan _ _ _ name) by done.
    destruct (fst (path_exists w (project_dir </> "rust/Cargo.toml")))
      as [rust_found|e'] eqn:Hrust; [|done].
    apply path_exists_fst in Hrust.
    destruct (fst (any_init_py _ _ _)) as [found|e']; [|done].
    destruct rust_found; cbn [andb]; [|intros [= <-]; by left].
    destruct found; intros [= <-]; [right|by left]. by eauto.
  - unfold _resolve_py_root.
    erewrite bind_fst_ok by by apply get_value_config. rewrite Hsrc.
    erewrite bind_fst_ok by by apply get_value_config. rewrite Hname.
    intros [= <-]. by left.
Qed.

Lemma resolve_py_root_range_witness :
  (Sample.at_root ["proj"; "src"] = Sample.proj ∨
   (Sample.at_root ["proj"; "src"] = Sample.proj </> "src" ∧
    path_exists Sample.mixed (Sample.proj </> "rust/Cargo.toml") = ret true ∧
    is_Some (config_value mixed_pyproject_file ["project"; "name"] py_str))) ∧
  (OSError (Sample.at_root ["proj"; "src"; "my_pkg"; "__init__.py"]) = TypeError ∨
   ∃ p, OSError (Sample.at_root ["proj"; "src"; "my_pkg"; "__init__.py"]) = OSError p).
Proof.
  split.
  - apply (proj1 (resolve_py_root_range Sample.mixed Sample.proj mixed_pyproject_file)
             (Sample.at_root ["proj"; "src"])).
    vm_compute. reflexivity.
  - apply (proj2 (resolve_py_root_range no_access_marker Sample.proj mixed_pyproject_file)).
    vm_compute. reflexivity.
Defined.

(** X9.  A resolved record is mixed exactly when the check of the path of
    its top-level package, the source root joined with [package_name],
    answered that something is there, be it a directory or a file of any
    kind; [python_module] is then that path. *)
Theorem is_mixed_iff_package_dir_exists
    (w : World) (project_dir : Path) (project : MaturinProject) (l : list log_record) :
  _resolve_project w project_dir = (Ok project, l) →
  ∃ found,
    path_exists w (python_dir project </> Project.package_name project) = ret found ∧
    Project.is_mixed project = found ∧
    (found = true →
     python_module project = Some (python_dir project </> Project.package_name project)).
Proof.
  intros [? ? _ _ _ _ _ _ found (Hfound & Hpm & Hed) _]%resolve_project_ok.
  pose proof (resolve_rust_module_names (python_dir project) (module_full_name project)) as Hl.
  cbv zeta in Hl. rewrite Hl in Hfound, Hpm, Hed. simpl in Hfound, Hpm, Hed.
  exists found. split; [done|].
  unfold Project.is_mixed. rewrite Hed, Hpm. unfold Project.package_name.
  by destruct found.
Qed.

Lemma is_mixed_iff_package_dir_exists_witness :
  (∃ found,
     path_exists Sample.mixed (python_dir mixed_project </> Project.package_name mixed_project)
     = ret found ∧
     Project.is_mixed mixed_project = found ∧
     (found = true →
      python_module mixed_project
      = Some (python_dir mixed_project </> Project.package_name mixed_project))) ∧
  (∃ found,
     path_exists package_is_file
       (python_dir package_is_file_project </> Project.package_name package_is_file_project)
     = ret found ∧
     Project.is_mixed package_is_file_project = found ∧
     (found = true →
      python_module package_is_file_project
      = Some (python_dir package_is_file_project
              </> Project.package_name package_is_file_project))).
Proof.
  split.
  - apply (is_mixed_iff_package_dir_exists Sample.mixed Sample.proj mixed_project []).
    vm_compute. reflexivity.
  - apply (is_mixed_iff_package_dir_exists package_is_file Sample.proj
             package_is_file_project []).
    vm_compute. reflexivity.
Defined.

(** A regular file where the package directory would be makes the record
    mixed: the code asks whether the path exists, not what is there. *)
Example file_at_package_path_is_mixed :
  nodes package_is_file !! Sample.at_root ["proj"; "my_pkg"] = Some Garbage ∧
  _resolve_project package_is_file Sample.proj = (Ok package_is_file_project, []) ∧
  Project.is_mixed package_is_file_project = true.
Proof. repeat split; vm_compute; reflexivity. Qed.

(** ** The layout of nested modules *)

Lemma removelast_cons_tl (parts : list string) :
  1 < length parts → removelast parts = first_part parts :: removelast (tl parts).
Proof. destruct parts as [|a [|b rest]]; simpl; intros; (done || lia). Qed.

(** X10.  For a module name whose components are plain directory names, the
    extension directory is the package directory followed by the components
    strictly between the first and the last: it is the package directory
    itself for names of one or two components and lies below it otherwise. *)
Theorem extension_dir_below_package (python_dir : Path) (name : string) :
  Forall plain (Str.split "." name) →
  let parts := Str.split "." name in
  let layout := _resolve_rust_module python_dir name in
  fst (fst layout) = extend python_dir [first_part parts] ∧
  snd (fst layout) = extend (fst (fst layout)) (removelast (tl parts)) ∧
  (length parts ≤ 2 → snd (fst layout) = fst (fst layout)).
Proof.
  intros Hplain parts layout. fold parts in Hplain.
  pose proof (split_nonempty "." name) as Hne. fold parts in Hne.
  assert (plain (first_part parts)) as Hfirst
    by (destruct parts; [done|]; by inversion Hplain).
  assert (fst (fst layout) = extend python_dir [first_part parts]) as Hpm.
  { unfold layout. rewrite resolve_rust_module_names. simpl. by apply join_plain. }
  assert (snd (fst layout) = extend (fst (fst layout)) (removelast (tl parts))) as Hed.
  { rewrite Hpm. unfold layout, _resolve_rust_module. fold parts.
    destruct (1 <? length parts) eqn:Hlen; simpl.
    - apply Nat.ltb_lt in Hlen.
      rewrite joinpath_of_segments_plain by by apply Forall_removelast.
      rewrite removelast_cons_tl by done. unfold extend; simpl.
      by rewrite <- app_assoc.
    - apply Nat.ltb_ge in Hlen.
      assert (length parts = 1) as H1 by (destruct parts; simpl in *; [done|lia]).
      apply split_single in H1. fold parts in H1. rewrite H1 in Hfirst |- *. simpl in *.
      rewrite join_plain by done. unfold extend; simpl. by rewrite <- app_assoc. }
  split; [done|]. split; [done|].
  intros Hlen. rewrite Hed.
  assert (removelast (tl parts) = []) as ->
    by (destruct parts as [|a [|b [|c rest]]]; simpl in *; (done || lia)).
  unfold extend. rewrite app_nil_r. by destruct (fst (fst layout)).
Qed.

Lemma extension_dir_below_package_witness :
  snd (fst (_resolve_rust_module (Sample.at_root ["r"]) "pkg.sub.deep.ext"))
  = extend (fst (fst (_resolve_rust_module (Sample.at_root ["r"]) "pkg.sub.deep.ext")))
      ["sub"; "deep"].
Proof.
  apply (extension_dir_below_package (Sample.at_root ["r"]) "pkg.sub.deep.ext").
  repeat constructor; done.
Defined.

(** ** The closure, once computed *)

(** X11.  The closure is closed: computing the closure of a closure returns
    the same list.  (The log of the second run may differ.) *)
Theorem find_all_path_dependencies_idempotent
    (w : World) (seeds result : list Path) (l : list log_record) :
  _find_all_path_dependencies w seeds = Some (Ok result, l) →
  ∃ l', _find_all_path_dependencies w result = Some (Ok result, l').
Proof.
  intros Hfirst.
  destruct (find_all_path_dependencies_ok _ _ _ _ Hfirst) as (visited & -> & Hreach & Hloads).
  destruct (sorted_paths_elements visited) as (Hmem & _ & _).
  assert (∀ p, reachable w (sorted_paths (elements visited)) p ↔ p ∈ visited) as Hsame.
  { intros p. split.
    - induction 1 as [p Hp|dir p found l' _ IH Hdeps Hp]; [by apply Hmem|].
      apply Hreach. eapply reachable_dependency; [|done..]. by apply Hreach.
    - intros Hp. apply reachable_seed. by apply Hmem. }
  destruct (find_all_path_dependencies_terminates w (sorted_paths (elements visited)))
    as [[[result'|e] l'] Hsecond].
  - exists l'. rewrite Hsecond. do 3 f_equal.
    destruct (find_all_path_dependencies_ok _ _ _ _ Hsecond) as (visited' & -> & Hreach' & _).
    assert (visited' = visited) as ->; [|done].
    apply set_eq. intros p. by rewrite Hreach', Hsame.
  - destruct (find_all_path_dependencies_raise _ _ _ _ Hsecond) as (dir & Hdir & Hraise).
    apply Hsame, Hloads in Hdir as (found & l'' & Hdeps). by rewrite Hdeps in Hraise.
Qed.

Lemma find_all_path_dependencies_idempotent_witness :
  ∃ l', _find_all_path_dependencies Sample.cycle [Sample.crate_a; Sample.crate_b]
        = Some (Ok [Sample.crate_a; Sample.crate_b], l').
Proof.
  apply (find_all_path_dependencies_idempotent Sample.cycle [Sample.crate_a] _ []).
  vm_compute. reflexivity.
Defined.

(** X12.  The [all_path_dependencies] property always ends.  When it returns
    a list, the list is stored in the record, holds every immediate path
    dependency if it was computed by this call, and a later access returns
    it again on any disk, without logging and without changing the record.
    When the walk raises, the record is left as it was, so the next access
    walks again. *)
Theorem all_path_dependencies_cached (w : World) (self : MaturinProject) :
  ∃ r self',
    Project.all_path_dependencies w self = Some (r, self') ∧
    (∀ all l, r = (Ok all, l) →
       _all_path_dependencies self' = Some all ∧
       (_all_path_dependencies self = None →
        ∀ p, p ∈ immediate_path_dependencies self → p ∈ all) ∧
       (∀ w', Project.all_path_dependencies w' self' = Some ((Ok all, []), self'))) ∧
    (∀ e l, r = (Raise e, l) → self' = self).
Proof.
  unfold Project.all_path_dependencies.
  destruct (_all_path_dependencies self) as [cached|] eqn:Hcache.
  - exists (ret cached), self. split; [done|]. split; [|done].
    intros all l [= <- <-]. split; [done|]. split; [done|].
    intros w'. by rewrite Hcache.
  - destruct (find_all_path_dependencies_terminates w (immediate_path_dependencies self))
      as [[[all|e] l] Hwalk]; rewrite Hwalk.
    + exists (Ok all, l), (Project.set_all_path_dependencies self all).
      split; [done|]. split; [|done].
      intros all' l' [= <- <-]. split; [done|]. split; [|done].
      intros _ p Hp.
      destruct (find_all_path_dependencies_ok _ _ _ _ Hwalk) as (visited & -> & Hreach & _).
      destruct (sorted_paths_elements visited) as (Hmem & _ & _).
      by apply Hmem, Hreach, reachable_seed.
    + exists (Raise e, l), self. split; [done|]. split; [done|]. done.
Qed.

Lemma all_path_dependencies_cached_witness :
  Project.all_path_dependencies Sample.cycle crate_a_project
  = Some ((Ok [Sample.crate_a; Sample.crate_b], []), crate_a_project_closed) ∧
  Project.all_path_dependencies Sample.mixed crate_a_project_closed
  = Some ((Ok [Sample.crate_a; Sample.crate_b], []), crate_a_project_closed).
Proof.
  destruct (all_path_dependencies_cached Sample.cycle crate_a_project)
    as (r & self' & Hcall & Hok & _).
  assert (Project.all_path_dependencies Sample.cycle crate_a_project
          = Some ((Ok [Sample.crate_a; Sample.crate_b], []), crate_a_project_closed))
    as Hrun by (vm_compute; reflexivity).
  rewrite Hrun in Hcall. injection Hcall as <- <-.
  split; [exact Hrun|].
  destruct (Hok _ _ eq_refl) as (_ & _ & Hagain). apply Hagain.
Defined.

(** ** The cache across calls *)

Lemma resolve_returned_cached w self project_dir r l self' :
  Resolver.resolve w self project_dir = ((Ok r, l), self') →
  _resolved_project_cache self' !! project_dir = Some r.
Proof.
  unfold Resolver.resolve.
  destruct (_resolved_project_cache self !! project_dir) as [cached|] eqn:Hcache.
  - by intros [= <- <- <-].
  - destruct (_resolve_project w project_dir) as [[project|e] l1].
    + intros [= <- <- <-]. simpl. by rewrite lookup_insert_eq.
    + destruct e; try discriminate. intros [= <- <- <-]. simpl.
      by rewrite lookup_insert_eq.
Qed.

Lemma resolve_keeps_entries w self project_dir x self' other r :
  Resolver.resolve w self project_dir = (x, self') →
  _resolved_project_cache self !! other = Some r →
  _resolved_project_cache self' !! other = Some r.
Proof.
  unfold Resolver.resolve. intros Hcall Hother.
  destruct (_resolved_project_cache self !! project_dir) as [cached|] eqn:Hcache.
  - by injection Hcall as <- <-.
  - assert (project_dir ≠ other) as Hne by congruence.
    destruct (_resolve_project w project_dir) as [[project|e] l1].
    + injection Hcall as <- <-. simpl. by rewrite lookup_insert_ne.
    + destruct e; injection Hcall as <- <-; simpl; try done.
      by rewrite lookup_insert_ne.
Qed.

(** X13.  An answer of [resolve] survives the calls made in between: after
    [resolve] has returned for a directory, and whatever directory is
    resolved next, with whatever outcome and on whatever disk, resolving the
    first directory again returns the first answer, logs nothing and leaves
    the resolver as it is.  No call removes or replaces an entry of the
    cache. *)
Theorem resolve_answer_survives
    (w1 w2 w3 : World) (self s1 s2 : ProjectResolver) (project_dir other : Path)
    (r : option MaturinProject) (l : list log_record)
    (x : M (option MaturinProject)) :
  Resolver.resolve w1 self project_dir = ((Ok r, l), s1) →
  Resolver.resolve w2 s1 other = (x, s2) →
  Resolver.resolve w3 s2 project_dir = ((Ok r, []), s2) ∧
  (∀ dir cached, _resolved_project_cache self !! dir = Some cached →
                 _resolved_project_cache s2 !! dir = Some cached).
Proof.
  intros Hfirst Hsecond. split.
  - pose proof (resolve_returned_cached _ _ _ _ _ _ Hfirst) as Hcached.
    pose proof (resolve_keeps_entries _ _ _ _ _ _ _ Hsecond Hcached) as Hkept.
    unfold Resolver.resolve. by rewrite Hkept.
  - intros dir cached Hdir.
    eapply resolve_keeps_entries; [exact Hsecond|].
    by eapply resolve_keeps_entries.
Qed.

Lemma resolve_answer_survives_witness :
  Resolver.resolve Sample.no_marker
    (snd (Resolver.resolve unparsable_pyproject
            (snd (Resolver.resolve Sample.mixed Resolver.init Sample.proj))
            (Sample.at_root ["elsewhere"])))
    Sample.proj
  = ((Ok (Some mixed_project), []),
     snd (Resolver.resolve unparsable_pyproject
            (snd (Resolver.resolve Sample.mixed Resolver.init Sample.proj))
            (Sample.at_root ["elsewhere"]))).
Proof.
  eapply (resolve_answer_survives Sample.mixed unparsable_pyproject Sample.no_marker
            Resolver.init _ _ Sample.proj (Sample.at_root ["elsewhere"])
            (Some mixed_project) []).
  - vm_compute. reflexivity.
  - apply surjective_pairing.
Defined.

(** ** Dependencies of a resolved record *)

(** X14.  The immediate path dependencies of a resolved record are the
    [path] strings the manifest declares, each joined to the directory of the
    manifest (not to the project directory) and resolved, in declaration
    order; a record is only returned where all those [path] values are
    strings that [resolve] accepts. *)
Theorem resolved_dependencies_relative_to_manifest
    (w : World) (project_dir : Path) (project : MaturinProject) (l : list log_record) :
  _resolve_project w project_dir = (Ok project, l) →
  ∃ cdata relatives,
    nodes w !! cargo_manifest_path project = Some (File cdata) ∧
    declared_paths (dependencies_table (mk_TomlFile (cargo_manifest_path project) cdata))
    = map TString relatives ∧
    Forall2
      (λ relative p,
         realpath w (PurePath.parent (cargo_manifest_path project) </> relative)
         = ResolvesTo p)
      relatives (immediate_path_dependencies project).
Proof.
  intros [pydata cdata _ _ Hcargo _ _ Hdeps _ _ _]%resolve_project_ok.
  exists cdata.
  rewrite get_immediate_path_dependencies_fst in Hdeps.
  apply resolve_declared_ok in Hdeps as (relatives & Hmap & Hall).
  by exists relatives.
Qed.

(** On a project whose manifest lies in rust/ and declares ../core and
    crates/util, the record holds app/core and app/rust/crates/util. *)
Lemma resolved_dependencies_relative_to_manifest_witness :
  ∃ cdata relatives,
    nodes nested_manifest_app !! Sample.at_root ["ws"; "app"; "rust"; "Cargo.toml"]
    = Some (File cdata) ∧
    declared_paths
      (dependencies_table (mk_TomlFile (Sample.at_root ["ws"; "app"; "rust"; "Cargo.toml"]) cdata))
    = map TString relatives ∧
    Forall2
      (λ relative p,
         realpath nested_manifest_app
           (PurePath.parent (Sample.at_root ["ws"; "app"; "rust"; "Cargo.toml"]) </> relative)
         = ResolvesTo p)
      relatives
      [Sample.at_root ["ws"; "app"; "core"];
       Sample.at_root ["ws"; "app"; "rust"; "crates"; "util"]].
Proof.
  apply (resolved_dependencies_relative_to_manifest nested_manifest_app
           (Sample.at_root ["ws"; "app"]) nested_manifest_project []).
  vm_compute. reflexivity.
Defined.

Example nested_manifest_dependencies :
  _resolve_project nested_manifest_app (Sample.at_root ["ws"; "app"])
  = (Ok nested_manifest_project, []) ∧
  declared_paths (dependencies_table workspace_cargo)
  = [TString "../core"; TString "crates/util"] ∧
  immediate_path_dependencies nested_manifest_project
  = [Sample.at_root ["ws"; "app"; "core"];
     Sample.at_root ["ws"; "app"; "rust"; "crates"; "util"]].
Proof. repeat split; vm_compute; reflexivity. Qed.
